(** * VNDBGanttChart: the file selector and the record extractor of
    [date_formal.py]

    A shallow embedding of [PlotlyVisualizer.extract_info_from_filename],
    [PlotlyVisualizer.process_files] and [PlotlyVisualizer.extract_vn_info],
    and the properties of the selection and date-derivation logic.

    Conventions of the embedding.
    - A Python [str] is a [string]; the model is exact for ASCII text (the
      Unicode word and digit classes of [re] are restricted to ASCII).
    - A raised exception is the left injection of a sum; [try]/[except] is a
      [match] on it.
    - [os.listdir], [datetime.today] and [ET.parse] are inputs: the listing
      of the folder, the day, and the tree of each file.
    - The library functions the program calls are embedded after CPython:
      [re.match] as a backtracking matcher, [datetime.strptime] as the
      pattern [_strptime] builds from a format followed by the checks of the
      [datetime] constructor, [date.toordinal], the comparison of
      [datetime]s, [Element.find], [findall], [get] and [text].
    - A Python [float] is idealised as a real number.  A pandas [Timestamp]
      is kept as the expression that builds it, midnight of a day or such a
      timestamp plus a [DateOffset] of a number of days; [instant] reads it
      as pandas applies it, the days of an offset cut to whole days.
    - pandas is not part of the program: what [pd.to_datetime] makes of the
      text of a start date (a day, or an error) is an input of the
      extractor, like the listing and the trees.  The day of the clock is
      taken inside the range of a [Timestamp]. *)

From Stdlib Require Import ZArith List Bool Ascii String Lia.
From Stdlib Require Import Reals Lra.
From stdpp Require Import base gmap strings.

Local Open Scope string_scope.
Local Open Scope Z_scope.

(** ** Exceptions *)

Inductive exn : Type :=
| ValueError_filename (filename : string) (* line 24: the name does not match *)
| ValueError_strptime                     (* raised inside datetime.strptime *)
| ValueError_no_xml                       (* line 43: no xml file was retained *)
| ValueError_multiple_users               (* line 45: more than one user *)
| ValueError_math_domain                  (* math.log of a non-positive number *)
| TypeError                               (* strptime applied to None *)
| AttributeError                          (* attribute access on None *)
| DateParseError                          (* pd.to_datetime: no date in the text *)
| OSError                                 (* ET.parse: the file cannot be read *)
| ParseError.                             (* ET.parse: the file is not XML *)

Definition result (A : Type) : Type := exn + A.

Definition ret {A : Type} (a : A) : result A := inr a.
Definition raise {A : Type} (e : exn) : result A := inl e.
Definition bind {A B : Type} (m : result A) (f : A -> result B) : result B :=
  match m with
  | inl e => inl e
  | inr a => f a
  end.

Notation "'let*' x ':=' m 'in' k" := (bind m (fun x => k))
  (at level 10, x name, m at level 100, k at level 200).

(** ** Strings *)

Module Str.

Definition is_digit (c : ascii) : bool :=
  let n := N_of_ascii c in (48 <=? n)%N && (n <=? 57)%N.

Definition is_alpha (c : ascii) : bool :=
  let n := N_of_ascii c in
  ((65 <=? n)%N && (n <=? 90)%N) || ((97 <=? n)%N && (n <=? 122)%N).

(** [\w] on ASCII text. *)
Definition is_word (c : ascii) : bool :=
  is_digit c || is_alpha c || Ascii.eqb c "_".

(** [.] without DOTALL: anything but a line feed. *)
Definition is_dot (c : ascii) : bool := negb (Ascii.eqb c "010").

Definition in_range (lo hi : ascii) (c : ascii) : bool :=
  (N_of_ascii lo <=? N_of_ascii c)%N && (N_of_ascii c <=? N_of_ascii hi)%N.

Fixpoint rev_acc (s acc : string) : string :=
  match s with
  | EmptyString => acc
  | String c s' => rev_acc s' (String c acc)
  end.

Definition rev (s : string) : string := rev_acc s EmptyString.

(** [s.startswith(p)] *)
Fixpoint startswith (s p : string) : bool :=
  match p, s with
  | EmptyString, _ => true
  | String a p', String b s' => Ascii.eqb a b && startswith s' p'
  | String _ _, EmptyString => false
  end.

(** [s.endswith(p)] *)
Definition endswith (s p : string) : bool := startswith (rev s) (rev p).

Fixpoint take (n : nat) (s : string) : string :=
  match n, s with
  | S n', String c s' => String c (take n' s')
  | _, _ => EmptyString
  end.

(** The part of [s] in front of its suffix [rest]. *)
Definition consumed (s rest : string) : string :=
  take (String.length s - String.length rest) s.

(** [int(s)] on a string of ASCII digits. *)
Fixpoint int_acc (s : string) (acc : Z) : Z :=
  match s with
  | EmptyString => acc
  | String c s' => int_acc s' (10 * acc + (Z.of_N (N_of_ascii c) - 48))
  end.

(** [int] skips surrounding blanks ([%d] may capture a leading space). *)
Fixpoint lstrip (s : string) : string :=
  match s with
  | String c s' => if Ascii.eqb c " " then lstrip s' else s
  | EmptyString => s
  end.

Definition int (s : string) : Z := int_acc (lstrip s) 0.

(** Every character of [s] is in the class [p]. *)
Fixpoint all (p : ascii -> bool) (s : string) : bool :=
  match s with
  | EmptyString => true
  | String c s' => p c && all p s'
  end.

End Str.

(** ** A backtracking matcher for the fragment of [re] the program uses *)

Module Re.

Inductive regex : Type :=
| Chr (p : ascii -> bool)     (* one character of a class *)
| Cat (r1 r2 : regex)         (* r1 r2 *)
| Alt (r1 r2 : regex)         (* r1|r2, the left branch first *)
| Plus (p : ascii -> bool)    (* greedy [c+] over a character class *)
| Grp (r : regex)             (* a capturing group *)
| Eps.                        (* the empty pattern *)

Definition lit (c : ascii) : regex := Chr (Ascii.eqb c).

(** A literal text. *)
Fixpoint lits (s : string) : regex :=
  match s with
  | EmptyString => Eps
  | String c s' => Cat (lit c) (lits s')
  end.

(** [r{n}] *)
Fixpoint rep (n : nat) (r : regex) : regex :=
  match n with
  | O => Eps
  | S n' => Cat r (rep n' r)
  end.

Definition seq (rs : list regex) : regex := fold_right Cat Eps rs.

(** A choice between literal alternatives, the first one first. *)
Fixpoint alts (r : regex) (rs : list regex) : regex :=
  match rs with
  | [] => r
  | r' :: rs' => Alt r (alts r' rs')
  end.

(** The state of a match is the text still to be read and the groups
    closed so far, in the order they closed. *)
Definition cont : Type := string -> list string -> option (string * list string).

(** Greedy repetition: read as many characters as possible, give one back
    each time the rest of the pattern fails. *)
Fixpoint plus_from (p : ascii -> bool) (s : string) (caps : list string)
    (k : cont) : option (string * list string) :=
  match s with
  | EmptyString => None
  | String c s' =>
      if p c then
        match plus_from p s' caps k with
        | Some m => Some m
        | None => k s' caps
        end
      else None
  end.

Fixpoint run (r : regex) (s : string) (caps : list string) (k : cont)
    : option (string * list string) :=
  match r with
  | Chr p =>
      match s with
      | String c s' => if p c then k s' caps else None
      | EmptyString => None
      end
  | Cat r1 r2 => run r1 s caps (fun s' caps' => run r2 s' caps' k)
  | Alt r1 r2 =>
      match run r1 s caps k with
      | Some m => Some m
      | None => run r2 s caps k
      end
  | Plus p => plus_from p s caps k
  | Grp r1 =>
      run r1 s caps (fun s' caps' => k s' (caps' ++ [Str.consumed s s'])%list)
  | Eps => k s caps
  end.

(** [re.match(r, s)]: anchored at the start only.  The result is the
    unread rest of [s] and the captured groups. *)
Definition re_match (r : regex) (s : string) : option (string * list string) :=
  run r s [] (fun s' caps => Some (s', caps)).

(** The texts a pattern matches, with the groups closed on the way. *)
Inductive matches : regex -> string -> list string -> list string -> Prop :=
| m_chr p c caps :
    p c = true -> matches (Chr p) (String c "") caps caps
| m_eps caps :
    matches Eps "" caps caps
| m_cat r1 r2 w1 w2 caps caps1 caps2 :
    matches r1 w1 caps caps1 -> matches r2 w2 caps1 caps2 ->
    matches (Cat r1 r2) (w1 ++ w2) caps caps2
| m_alt_l r1 r2 w caps caps' :
    matches r1 w caps caps' -> matches (Alt r1 r2) w caps caps'
| m_alt_r r1 r2 w caps caps' :
    matches r2 w caps caps' -> matches (Alt r1 r2) w caps caps'
| m_plus p w caps :
    w <> "" -> Str.all p w = true -> matches (Plus p) w caps caps
| m_grp r w caps caps' :
    matches r w caps caps' -> matches (Grp r) w caps (caps' ++ [w])%list.

End Re.

(** ** Calendar dates and [datetime] *)

Record datetime : Type := mkdatetime {
  year : Z; month : Z; day : Z; hour : Z; minute : Z; second : Z
}.

(** [datetime.date]: the calendar part alone. *)
Record date : Type := mkdate { dyear : Z; dmonth : Z; dday : Z }.

Definition date_of (d : datetime) : date := mkdate (year d) (month d) (day d).

Module Calendar.

Definition is_leap (y : Z) : bool :=
  (y mod 4 =? 0) && (negb (y mod 100 =? 0) || (y mod 400 =? 0)).

Definition days_in_month (y m : Z) : Z :=
  if m =? 2 then (if is_leap y then 29 else 28)
  else if (m =? 4) || (m =? 6) || (m =? 9) || (m =? 11) then 30
  else 31.

Definition days_before_year (y : Z) : Z :=
  let y1 := y - 1 in y1 * 365 + y1 / 4 - y1 / 100 + y1 / 400.

Definition days_before_month (y m : Z) : Z :=
  nth (Z.to_nat m) [0; 0; 31; 59; 90; 120; 151; 181; 212; 243; 273; 304; 334] 0
  + (if (2 <? m) && is_leap y then 1 else 0).

(** [date.toordinal]: 0001-01-01 is day 1. *)
Definition toordinal (d : date) : Z :=
  days_before_year (dyear d) + days_before_month (dyear d) (dmonth d) + dday d.

(** What the constructors of [date] and [datetime] accept. *)
Definition valid_date (y m d : Z) : bool :=
  (1 <=? y) && (y <=? 9999) && (1 <=? m) && (m <=? 12)
  && (1 <=? d) && (d <=? days_in_month y m).

Definition valid_time (h mi s : Z) : bool :=
  (0 <=? h) && (h <=? 23) && (0 <=? mi) && (mi <=? 59)
  && (0 <=? s) && (s <=? 59).

End Calendar.

(** Comparison of two [datetime]s: the fields in order, the first
    difference decides. *)
Fixpoint lex_cmp (a b : list Z) : comparison :=
  match a, b with
  | [], [] => Eq
  | [], _ :: _ => Lt
  | _ :: _, [] => Gt
  | x :: a', y :: b' =>
      match x ?= y with
      | Eq => lex_cmp a' b'
      | c => c
      end
  end.

Definition datetime_fields (d : datetime) : list Z :=
  [year d; month d; day d; hour d; minute d; second d].

Definition datetime_cmp (a b : datetime) : comparison :=
  lex_cmp (datetime_fields a) (datetime_fields b).

(** [a > b] and [a < b] on [datetime]. *)
Definition datetime_gt (a b : datetime) : bool :=
  match datetime_cmp a b with Gt => true | _ => false end.

Definition datetime_lt (a b : datetime) : bool :=
  match datetime_cmp a b with Lt => true | _ => false end.

(** ** [datetime.strptime] *)

Module Strptime.
Import Re.

Inductive directive : Type :=
| DY | Dm | Dd | DH | DM | DS
| DLit (c : ascii).

(** The directives of a format string; [None] on a directive the program
    never uses. *)
Fixpoint directives (format : string) : option (list directive) :=
  match format with
  | EmptyString => Some []
  | String "%" (String c rest) =>
      let d :=
        if Ascii.eqb c "Y" then Some DY
        else if Ascii.eqb c "m" then Some Dm
        else if Ascii.eqb c "d" then Some Dd
        else if Ascii.eqb c "H" then Some DH
        else if Ascii.eqb c "M" then Some DM
        else if Ascii.eqb c "S" then Some DS
        else None in
      match d, directives rest with
      | Some d, Some ds => Some (d :: ds)
      | _, _ => None
      end
  | String c rest =>
      match directives rest with
      | Some ds => Some (DLit c :: ds)
      | None => None
      end
  end.

Definition digit : regex := Chr Str.is_digit.
Definition range (lo hi : ascii) : regex := Chr (Str.in_range lo hi).

(** The pattern each directive stands for. *)
Definition directive_regex (d : directive) : regex :=
  match d with
  | DY => Grp (rep 4 digit)
  | Dm => Grp (alts (Cat (lit "1") (range "0" "2"))
                 [Cat (lit "0") (range "1" "9"); range "1" "9"])
  | Dd => Grp (alts (Cat (lit "3") (range "0" "1"))
                 [Cat (range "1" "2") digit; Cat (lit "0") (range "1" "9");
                  range "1" "9"; Cat (lit " ") (range "1" "9")])
  | DH => Grp (alts (Cat (lit "2") (range "0" "3"))
                 [Cat (range "0" "1") digit; digit])
  | DM => Grp (alts (Cat (range "0" "5") digit) [digit])
  | DS => Grp (alts (Cat (lit "6") (range "0" "1"))
                 [Cat (range "0" "5") digit; digit])
  | DLit c => lit c
  end.

Definition format_regex (ds : list directive) : regex :=
  seq (map directive_regex ds).

Definition set_field (d : directive) (v : Z) (dt : datetime) : datetime :=
  match d with
  | DY => mkdatetime v (month dt) (day dt) (hour dt) (minute dt) (second dt)
  | Dm => mkdatetime (year dt) v (day dt) (hour dt) (minute dt) (second dt)
  | Dd => mkdatetime (year dt) (month dt) v (hour dt) (minute dt) (second dt)
  | DH => mkdatetime (year dt) (month dt) (day dt) v (minute dt) (second dt)
  | DM => mkdatetime (year dt) (month dt) (day dt) (hour dt) v (second dt)
  | DS => mkdatetime (year dt) (month dt) (day dt) (hour dt) (minute dt) v
  | DLit _ => dt
  end.

(** The groups are read back in the order of the directives. *)
Fixpoint assign (ds : list directive) (caps : list string) (dt : datetime)
    : datetime :=
  match ds with
  | [] => dt
  | DLit _ :: ds' => assign ds' caps dt
  | d :: ds' =>
      match caps with
      | c :: caps' => assign ds' caps' (set_field d (Str.int c) dt)
      | [] => dt
      end
  end.

Definition default : datetime := mkdatetime 1900 1 1 0 0 0.

Definition valid (dt : datetime) : bool :=
  Calendar.valid_date (year dt) (month dt) (day dt)
  && Calendar.valid_time (hour dt) (minute dt) (second dt).

(** [datetime.strptime(data_string, format)]: the text must match the
    pattern of the format from its start, nothing may remain unread, and
    the fields must form a date and a time. *)
Definition strptime (data_string format : string) : result datetime :=
  match directives format with
  | None => raise ValueError_strptime
  | Some ds =>
      match re_match (format_regex ds) data_string with
      | None => raise ValueError_strptime
      | Some (rest, caps) =>
          if negb (String.length rest =? 0)%nat then raise ValueError_strptime
          else
            let dt := assign ds caps default in
            if valid dt then ret dt else raise ValueError_strptime
      end
  end.

End Strptime.

Definition strptime := Strptime.strptime.


(** ** The file selector *)

(** [r'vndb-list-export-(\w+)-(\d{14}).xml'] *)
Definition pattern : Re.regex :=
  Re.seq [Re.lits "vndb-list-export-"; Re.Grp (Re.Plus Str.is_word); Re.lit "-";
          Re.Grp (Re.rep 14 (Re.Chr Str.is_digit)); Re.Chr Str.is_dot;
          Re.lits "xml"].

(** [extract_info_from_filename]: the user name and the export time of a
    file name, or the error of line 24. *)
Definition extract_info_from_filename (filename : string)
    : result (string * datetime) :=
  match Re.re_match pattern filename with
  | Some (_, [username; export_time_str]) =>
      let* export_time := strptime export_time_str "%Y%m%d%H%M%S" in
      ret (username, export_time)
  | _ => raise (ValueError_filename filename)
  end.

(** The local variables of the loop of [process_files]. *)
Record selection : Type := mkselection {
  latest_file : option string;
  latest_export_time : datetime;
  usernames : gset string
}.

(** [datetime(1970, 1, 1)] *)
Definition epoch : datetime := mkdatetime 1970 1 1 0 0 0.

Definition selection_init : selection := mkselection None epoch ∅.

(** One turn of the loop of lines 35-41. *)
Definition process_file (st : selection) (filename : string) : result selection :=
  if Str.endswith filename ".xml" then
    let* info := extract_info_from_filename filename in
    let usernames' := usernames st ∪ {[fst info]} in
    if datetime_gt (snd info) (latest_export_time st)
    then ret (mkselection (Some filename) (snd info) usernames')
    else ret (mkselection (latest_file st) (latest_export_time st) usernames')
  else ret st.

Fixpoint process_loop (file_list : list string) (st : selection)
    : result selection :=
  match file_list with
  | [] => ret st
  | filename :: rest =>
      let* st' := process_file st filename in
      process_loop rest st'
  end.

(** [process_files], on the listing [os.listdir] returned. *)
Definition process_files (file_list : list string) : result string :=
  let* st := process_loop file_list selection_init in
  match latest_file st with
  | None => raise ValueError_no_xml
  | Some f =>
      if (1 <? size (usernames st))%nat then raise ValueError_multiple_users
      else ret f
  end.


(** ** The parsed export: [xml.etree.ElementTree] elements *)

#[warnings="-register-all"]
Inductive Element : Type :=
  mkElement (tag : string) (attrib : gmap string string)
            (text : option string) (children : list Element).

Definition tag (e : Element) : string :=
  match e with mkElement t _ _ _ => t end.
Definition attrib (e : Element) : gmap string string :=
  match e with mkElement _ a _ _ => a end.
Definition text (e : Element) : option string :=
  match e with mkElement _ _ x _ => x end.
Definition children (e : Element) : list Element :=
  match e with mkElement _ _ _ c => c end.

(** [e.find(path)] for a plain tag name: the first child with that tag. *)
Definition find (e : Element) (path : string) : option Element :=
  List.find (fun c => String.eqb (tag c) path) (children e).

(** [e.findall(path)]: the children with that tag, in document order. *)
Definition findall (e : Element) (path : string) : list Element :=
  List.filter (fun c => String.eqb (tag c) path) (children e).

(** ** Values and records *)

(** A pandas [Timestamp], as the program builds it: [pd.to_datetime] of a
    day, or a timestamp plus [pd.DateOffset(days=x)]. *)
Inductive Timestamp : Type :=
| midnight (d : date)
| plus_days (t : Timestamp) (days : R).

(** The values the fields of a record take: [None], a [str] or a
    [Timestamp]. *)
Inductive pyval : Type :=
| PyNone
| PyStr (s : string)
| PyTimestamp (t : Timestamp).

Definition of_option (o : option string) : pyval :=
  match o with
  | None => PyNone
  | Some s => PyStr s
  end.

(** [e.get(key)] *)
Definition get (e : Element) (key : string) : pyval := of_option (attrib e !! key).

(** [x == 'literal'] for a value that is a [str] or [None]. *)
Definition eq_str (v : pyval) (s : string) : bool :=
  match v with
  | PyStr s' => String.eqb s' s
  | _ => false
  end.

(** The dictionary appended to [results] at line 87. *)
Record SpanRecord : Type := mkSpanRecord {
  title : pyval;
  started : pyval;
  finished : pyval;
  label : pyval
}.

(** An attribute or method of a value that may be [None]. *)
Definition attr {A : Type} (o : option A) : result A :=
  match o with
  | None => raise AttributeError
  | Some a => ret a
  end.

(** [datetime.strptime(v, "%Y-%m-%d")] for a value that may be [None]. *)
Definition strptime_date (v : pyval) : result datetime :=
  match v with
  | PyStr s => strptime s "%Y-%m-%d"
  | _ => raise TypeError
  end.

(** ** pandas and [math] *)

(** [int(x)] on a float: the whole part, towards zero. *)
Definition trunc (x : R) : Z :=
  if Rle_dec 0 x then Int_part x else (- Int_part (- x))%Z.

(** The instant of a timestamp, in days from the origin of
    [date.toordinal].  pandas applies a [DateOffset] of a number of days with
    that number cut to its whole part: the sum of a midnight and an offset
    is a midnight. *)
Fixpoint instant (t : Timestamp) : R :=
  match t with
  | midnight d => IZR (Calendar.toordinal d)
  | plus_days t' x => (instant t' + IZR (trunc x))%R
  end.

(** What [pd.to_datetime] makes of a text: the day it reads in it, at
    midnight, or the error it raises. *)
Definition date_parser : Type := string -> result date.

(** [pd.to_datetime(started)], for a value that may be [None]. *)
Definition to_date (to_datetime : date_parser) (v : pyval) : result date :=
  match v with
  | PyStr s => to_datetime s
  | _ => raise TypeError
  end.

(** [(pd.to_datetime(a) - pd.to_datetime(b)).days] for two midnights. *)
Definition days_between (a b : date) : Z :=
  Calendar.toordinal a - Calendar.toordinal b.

(** The base of the logarithm, line 82. *)
Definition log_base : R := (127 / 100)%R.

(** [math.log(x, 1.27)] for an [int] x: [log(x) / log(1.27)], a
    [ValueError] when [x] is not positive. *)
Definition math_log (x : Z) : result R :=
  if 0 <? x then ret (ln (IZR x) / ln log_base)%R
  else raise ValueError_math_domain.

(** ** The record extractor *)

(** The [try] block of lines 57-60: the start date and whether it is
    before [time_range]. *)
Definition try_started (time_range : string) (vn : Element)
    : result (pyval * bool) :=
  let* e := attr (find vn "started") in
  let started := of_option (text e) in
  let* d := strptime_date started in
  let* c := strptime_date (PyStr time_range) in
  ret (started, datetime_lt d c).

(** Lines 65-67. *)
Definition resolve_title (vn : Element) : result pyval :=
  let* t := attr (find vn "title") in
  match get t "original" with
  | PyNone => let* t' := attr (find vn "title") in ret (of_option (text t'))
  | v => ret v
  end.

(** Lines 70-73. *)
Definition resolve_label (vn : Element) : pyval :=
  match attr (find vn "label") with
  | inr l => get l "label"
  | inl _ => PyStr "Finished"
  end.

(** Lines 76-85. *)
Definition resolve_finished (to_datetime : date_parser) (today : date)
    (vn : Element) (started label : pyval) : result pyval :=
  match attr (find vn "finished") with
  | inr f => ret (of_option (text f))
  | inl _ =>
      if eq_str label "Stalled" then
        let* s := to_date to_datetime started in
        let days_diff := days_between today s in
        let* line_length := math_log (days_diff + 1) in
        let* s' := to_date to_datetime started in
        ret (PyTimestamp (plus_days (midnight s') line_length))
      else ret (PyTimestamp (midnight today))
  end.

(** The body of the loop of line 54 for one [vn]: [None] when the entry is
    skipped by [continue], the record appended otherwise. *)
Definition extract_vn (to_datetime : date_parser) (time_range : string)
    (today : date) (vn : Element) : result (option SpanRecord) :=
  match try_started time_range vn with
  | inl _ => ret None
  | inr (_, true) => ret None
  | inr (started, false) =>
      let* title := resolve_title vn in
      let label := resolve_label vn in
      let* finished := resolve_finished to_datetime today vn started label in
      ret (Some (mkSpanRecord title started finished label))
  end.

Fixpoint extract_loop (to_datetime : date_parser) (time_range : string)
    (today : date) (vns : list Element) (results : list SpanRecord)
    : result (list SpanRecord) :=
  match vns with
  | [] => ret results
  | vn :: rest =>
      let* o := extract_vn to_datetime time_range today vn in
      extract_loop to_datetime time_range today rest
        (match o with
         | None => results
         | Some r => results ++ [r]
         end)%list
  end.

(** [ET.parse(name).getroot()], for the names of the folder. *)
Definition parser : Type := string -> result Element.

(** [extract_vn_info], with the listing and the files of the folder,
    pandas' reading of dates, [self.time_range] and the day
    [datetime.today().date()] returns. *)
Definition extract_vn_info (file_list : list string) (parse : parser)
    (to_datetime : date_parser) (time_range : string) (today : date)
    : result (list SpanRecord) :=
  let* latest := process_files file_list in
  let* root := parse latest in
  let* vns := attr (find root "vns") in
  extract_loop to_datetime time_range today (findall vns "vn") [].

(** ** Vocabulary of the statements about the selector *)

(** [filename] is a candidate of the listing: it passes the test of line 36
    and its name yields the user [u] and the export time [t]. *)
Definition candidate (file_list : list string) (filename u : string)
    (t : datetime) : Prop :=
  In filename file_list /\ Str.endswith filename ".xml" = true
  /\ extract_info_from_filename filename = inr (u, t).

(** The names [extract_info_from_filename] accepts: the prefix, a user
    name, a dash, the digits of the export time, one character, [xml] and
    anything. *)
Definition export_name (u digits : string) (c : ascii) (rest : string) : string :=
  "vndb-list-export-" ++ u ++ "-" ++ digits ++ String c ("xml" ++ rest).

(** Every name of the listing that ends in [.xml] matches the pattern. *)
Definition well_named (file_list : list string) : Prop :=
  forall f, In f file_list -> Str.endswith f ".xml" = true ->
    exists i, extract_info_from_filename f = inr i.

(** All the candidates of the listing carry the same user name. *)
Definition single_owner (file_list : list string) : Prop :=
  forall g g' u u' t t',
    candidate file_list g u t -> candidate file_list g' u' t' -> u = u'.

(** What holds of the variables of the loop of [process_files] once the
    names of [file_list] have been visited. *)
Record selection_inv (file_list : list string) (st : selection) : Prop := {
  inv_upper : forall g u t,
    candidate file_list g u t -> datetime_gt t (latest_export_time st) = false;
  inv_users : forall u,
    u ∈ usernames st <-> exists g t, candidate file_list g u t;
  inv_latest :
    match latest_file st with
    | None => latest_export_time st = epoch
    | Some f =>
        datetime_lt epoch (latest_export_time st) = true
        /\ exists l1 l2 u,
             file_list = (l1 ++ f :: l2)%list
             /\ Str.endswith f ".xml" = true
             /\ extract_info_from_filename f = inr (u, latest_export_time st)
             /\ forall g u' t', candidate l1 g u' t' ->
                  datetime_lt t' (latest_export_time st) = true
    end
}.

(** ** Sample listings *)

Definition export_A_2023 : string := "vndb-list-export-A-20230101000000.xml".
Definition export_A_2024 : string := "vndb-list-export-A-20240101000000.xml".
Definition export_A_2024_copy : string :=
  "vndb-list-export-A-20240101000000.xml.bak.xml".
Definition export_B_2023 : string := "vndb-list-export-B-20230101000000.xml".
Definition export_A_epoch : string := "vndb-list-export-A-19700101000000.xml".
Definition export_B_epoch : string := "vndb-list-export-B-19700101000000.xml".

Definition t_2023 : datetime := mkdatetime 2023 1 1 0 0 0.
Definition t_2024 : datetime := mkdatetime 2024 1 1 0 0 0.

(** ** Vocabulary of the statements about the extractor *)

(** The entry passes the gate of lines 57-62: its start date is present
    with text [s], [strptime] reads the day [d] in it, and [d] is not
    before the day read in [time_range]. *)
Definition passes_gate (time_range : string) (vn : Element) (s : string)
    (d : datetime) : Prop :=
  exists e c,
    find vn "started" = Some e /\ text e = Some s
    /\ strptime s "%Y-%m-%d" = inr d
    /\ strptime time_range "%Y-%m-%d" = inr c
    /\ datetime_lt d c = false.

(** The start date is absent (no element, or an element without text),
    or [strptime] rejects it, or it is before the day of [time_range]. *)
Definition fails_gate (time_range : string) (vn : Element) : Prop :=
  find vn "started" = None
  \/ (exists e, find vn "started" = Some e /\ text e = None)
  \/ (exists e s err,
        find vn "started" = Some e /\ text e = Some s
        /\ strptime s "%Y-%m-%d" = inl err)
  \/ (exists e s d c,
        find vn "started" = Some e /\ text e = Some s
        /\ strptime s "%Y-%m-%d" = inr d
        /\ strptime time_range "%Y-%m-%d" = inr c
        /\ datetime_lt d c = true).

(** What one entry contributes to the result: its record, or nothing. *)
Definition emitted (to_datetime : date_parser) (time_range : string)
    (today : date) (vn : Element) : list SpanRecord :=
  match extract_vn to_datetime time_range today vn with
  | inr (Some r) => [r]
  | _ => []
  end.

(** The day after [d] in the calendar. *)
Definition next_day (d : date) : date :=
  if dday d <? Calendar.days_in_month (dyear d) (dmonth d)
  then mkdate (dyear d) (dmonth d) (dday d + 1)
  else if dmonth d <? 12 then mkdate (dyear d) (dmonth d + 1) 1
  else mkdate (dyear d + 1) 1 1.

(** ** Sample entries *)

Definition leaf (t s : string) : Element := mkElement t ∅ (Some s) [].
Definition empty_elem (t : string) : Element := mkElement t ∅ None [].
Definition label_elem (l : string) : Element :=
  mkElement "label" {[ "label" := l ]} None [].
Definition entry (cs : list Element) : Element := mkElement "vn" ∅ None cs.

Definition vn_stalled : Element :=
  entry [leaf "title" "X"; label_elem "Stalled"; leaf "started" "2021-05-01"].
Definition vn_playing : Element :=
  entry [leaf "title" "X"; label_elem "Playing"; leaf "started" "2022-01-01"].
Definition vn_empty_finished : Element :=
  entry [leaf "title" "X"; label_elem "Finished"; leaf "started" "2022-01-01";
         empty_elem "finished"].
Definition vn_empty_title : Element :=
  entry [empty_elem "title"; label_elem "Finished"; leaf "started" "2022-01-01"].
Definition vn_label_without_attribute : Element :=
  entry [leaf "title" "X"; mkElement "label" {[ "id" := "2" ]} None [];
         leaf "started" "2022-01-01"].
Definition vn_no_started : Element :=
  entry [leaf "title" "X"; label_elem "Finished"].
Definition vn_old : Element :=
  entry [leaf "title" "X"; label_elem "Finished"; leaf "started" "2019-12-31"].

(** A parsed export holding the given entries. *)
Definition export_root (vns : list Element) : Element :=
  mkElement "vndb-export" ∅ None [empty_elem "user"; mkElement "vns" ∅ None vns].

(** A folder with the program and one export holding the given entries. *)
Definition folder_listing : list string := ["date_formal.py"; export_A_2023].
Definition folder_parse (vns : list Element) : parser :=
  fun name =>
    if String.eqb name export_A_2023 then ret (export_root vns) else raise OSError.

Definition cutoff : string := "2020-01-01".

(** [pd.to_datetime] on the start dates of the sample entries: the four
    days written in full, and a text with a blank in the day, which
    [strptime] reads and pandas refuses.  No other text is used. *)
Definition sample_to_datetime : date_parser :=
  fun s =>
    if String.eqb s "2021-05-01" then ret (mkdate 2021 5 1)
    else if String.eqb s "2021-08-02" then ret (mkdate 2021 8 2)
    else if String.eqb s "2022-01-01" then ret (mkdate 2022 1 1)
    else if String.eqb s "2019-12-31" then ret (mkdate 2019 12 31)
    else if String.eqb s "2021-05- 1" then raise DateParseError
    else raise DateParseError.

Definition day_2021_05_01 : date := mkdate 2021 5 1.
Definition day_2021_08_01 : date := mkdate 2021 8 1.
Definition day_2022_03_01 : date := mkdate 2022 3 1.

(** The record of [vn_playing] on 2022-03-01. *)
Definition record_playing : SpanRecord :=
  mkSpanRecord (PyStr "X") (PyStr "2022-01-01")
    (PyTimestamp (midnight day_2022_03_01)) (PyStr "Playing").

(** * Properties *)

(** ** The library functions on sample inputs *)

Section Samples.

(** [strptime] with the format of the start dates: a plain date; digits
    without their leading zero; a day that does not exist; a two-digit
    year; text left unread; a text that is no date. *)
Example strptime_date_samples :
  strptime "2021-05-01" "%Y-%m-%d" = inr (mkdatetime 2021 5 1 0 0 0)
  /\ strptime "2021-5-1" "%Y-%m-%d" = inr (mkdatetime 2021 5 1 0 0 0)
  /\ strptime "2021-02-29" "%Y-%m-%d" = inl ValueError_strptime
  /\ strptime "21-05-01" "%Y-%m-%d" = inl ValueError_strptime
  /\ strptime "2021-05-01 10:00" "%Y-%m-%d" = inl ValueError_strptime
  /\ strptime "sometime" "%Y-%m-%d" = inl ValueError_strptime.
Proof. repeat split. Qed.

(** [strptime] with the format of the export times: the fields take two
    digits each, so a month 13 or a second 60 is refused. *)
Example strptime_export_samples :
  strptime "20240229235959" "%Y%m%d%H%M%S" = inr (mkdatetime 2024 2 29 23 59 59)
  /\ strptime "20231301000000" "%Y%m%d%H%M%S" = inl ValueError_strptime
  /\ strptime "20230101000060" "%Y%m%d%H%M%S" = inl ValueError_strptime
  /\ strptime "00000101000000" "%Y%m%d%H%M%S" = inl ValueError_strptime.
Proof. repeat split. Qed.

(** The pattern of the file names: word characters for the user, fourteen
    digits, any character in the place of the dot, anything after [xml]. *)
Example extract_info_samples :
  extract_info_from_filename "vndb-list-export-u_1-20230101000000.xml"
  = inr ("u_1", t_2023)
  /\ extract_info_from_filename "vndb-list-export-u1-20230101000000-xml.old"
     = inr ("u1", t_2023)
  /\ extract_info_from_filename "vndb-list-export-u1-2023010100000.xml"
     = inl (ValueError_filename "vndb-list-export-u1-2023010100000.xml")
  /\ extract_info_from_filename "vndb-list-export-a-b-20230101000000.xml"
     = inl (ValueError_filename "vndb-list-export-a-b-20230101000000.xml")
  /\ extract_info_from_filename "export-u1-20230101000000.xml"
     = inl (ValueError_filename "export-u1-20230101000000.xml")
  /\ extract_info_from_filename "vndb-list-export-u1-20231301000000.xml"
     = inl ValueError_strptime.
Proof. repeat split. Qed.

Example endswith_samples :
  Str.endswith "notes.xml" ".xml" = true
  /\ Str.endswith "notes.xml.bak" ".xml" = false
  /\ Str.endswith "xml" ".xml" = false
  /\ Str.endswith ".xml" ".xml" = true.
Proof. repeat split. Qed.

(** [date.toordinal] on the days Python documents: day 1 and the epoch. *)
Example toordinal_samples :
  Calendar.toordinal (mkdate 1 1 1) = 1
  /\ Calendar.toordinal (mkdate 1970 1 1) = 719163
  /\ days_between day_2021_08_01 day_2021_05_01 = 92.
Proof. repeat split. Qed.

End Samples.

(** ** The matcher and the pattern of the file names *)

Section Matcher.

Local Arguments String.append !s1 s2 : simpl nomatch.

Lemma append_nil_r (s : string) : s ++ "" = s.
Proof. induction s as [|c s IH]; simpl; congruence. Qed.

Lemma append_assoc (a b c : string) : (a ++ b) ++ c = a ++ (b ++ c).
Proof. induction a as [|x a IH]; simpl; congruence. Qed.

Lemma length_append (a b : string) :
  String.length (a ++ b) = (String.length a + String.length b)%nat.
Proof. induction a as [|x a IH]; simpl; congruence. Qed.

Lemma take_append (a b : string) : Str.take (String.length a) (a ++ b) = a.
Proof.
  induction a as [|x a IH]; simpl; [destruct b; reflexivity|].
  now rewrite IH.
Qed.

Lemma consumed_append (w s : string) : Str.consumed (w ++ s) s = w.
Proof.
  unfold Str.consumed. rewrite length_append.
  replace (String.length w + String.length s - String.length s)%nat
    with (String.length w) by lia.
  apply take_append.
Qed.

Lemma all_append (p : ascii -> bool) (a b : string) :
  Str.all p (a ++ b) = Str.all p a && Str.all p b.
Proof.
  induction a as [|x a IH]; simpl; [reflexivity|].
  rewrite IH. now rewrite andb_assoc.
Qed.

(** What the greedy repetition hands to the rest of the pattern. *)
Lemma plus_from_sound (p : ascii -> bool) (s : string) (caps : list string)
    (k : Re.cont) (m : string * list string) :
  Re.plus_from p s caps k = Some m ->
  exists w s', s = w ++ s' /\ w <> "" /\ Str.all p w = true
               /\ k s' caps = Some m.
Proof.
  revert m. induction s as [|c s IH]; intros m H; simpl in H; [discriminate|].
  destruct (p c) eqn:Hc; [|discriminate].
  destruct (Re.plus_from p s caps k) as [m'|] eqn:Hrec.
  - injection H as <-.
    destruct (IH m' eq_refl) as (w & s' & -> & _ & Hw & Hk).
    exists (String c w), s'. simpl. rewrite Hc, Hw.
    repeat split; auto; discriminate.
  - exists (String c ""), s. simpl. rewrite Hc.
    repeat split; auto; discriminate.
Qed.

(** A successful run reads a text the pattern matches and goes on with the
    rest. *)
Lemma run_sound (r : Re.regex) :
  forall s caps k m,
    Re.run r s caps k = Some m ->
    exists w s' caps',
      s = w ++ s' /\ Re.matches r w caps caps' /\ k s' caps' = Some m.
Proof.
  induction r as [p|r1 IH1 r2 IH2|r1 IH1 r2 IH2|p|r IH|]; intros s caps k m H;
    simpl in H.
  - destruct s as [|c s]; [discriminate|].
    destruct (p c) eqn:Hc; [|discriminate].
    exists (String c ""), s, caps. repeat split; auto. now constructor.
  - apply IH1 in H as (w1 & s1 & caps1 & -> & M1 & H).
    apply IH2 in H as (w2 & s2 & caps2 & -> & M2 & H).
    exists (w1 ++ w2), s2, caps2. rewrite append_assoc.
    repeat split; auto. econstructor; eauto.
  - destruct (Re.run r1 s caps k) as [m'|] eqn:H1.
    + injection H as <-. apply IH1 in H1 as (w & s' & caps' & -> & M & H).
      exists w, s', caps'. repeat split; auto. now apply Re.m_alt_l.
    + apply IH2 in H as (w & s' & caps' & -> & M & H).
      exists w, s', caps'. repeat split; auto. now apply Re.m_alt_r.
  - apply plus_from_sound in H as (w & s' & -> & Hne & Hall & H).
    exists w, s', caps. repeat split; auto. now constructor.
  - apply IH in H as (w & s' & caps' & -> & M & H).
    rewrite consumed_append in H.
    exists w, s', (caps' ++ [w])%list. repeat split; auto. now constructor.
  - exists "", s, caps. repeat split; auto. constructor.
Qed.

Lemma matches_lits (p w : string) (caps caps' : list string) :
  Re.matches (Re.lits p) w caps caps' -> w = p /\ caps' = caps.
Proof.
  revert w caps caps'. induction p as [|c p IH]; intros w caps caps' H; simpl in H.
  - inversion H; subst. auto.
  - inversion H as [| |? ? w1 w2 ? caps1 ? M1 M2| | | |]; subst.
    inversion M1 as [? c' ? Hc| | | | | |]; subst.
    apply Ascii.eqb_eq in Hc. subst c'.
    apply IH in M2 as [-> ->]. auto.
Qed.

Lemma matches_rep_chr (p : ascii -> bool) (n : nat) (w : string)
    (caps caps' : list string) :
  Re.matches (Re.rep n (Re.Chr p)) w caps caps' ->
  String.length w = n /\ Str.all p w = true /\ caps' = caps.
Proof.
  revert w caps caps'. induction n as [|n IH]; intros w caps caps' H; simpl in H.
  - inversion H; subst. auto.
  - inversion H as [| |? ? w1 w2 ? caps1 ? M1 M2| | | |]; subst.
    inversion M1 as [? c' ? Hc| | | | | |]; subst.
    apply IH in M2 as (<- & Hall & ->). simpl. rewrite Hc, Hall. auto.
Qed.

(** The literal part of a pattern reads itself. *)
Lemma run_lits (p s : string) (caps : list string) (k : Re.cont) :
  Re.run (Re.lits p) (p ++ s) caps k = k s caps.
Proof.
  induction p as [|c p IH]; simpl; [reflexivity|].
  now rewrite Ascii.eqb_refl.
Qed.

Lemma run_rep_chr (p : ascii -> bool) (w s : string) (caps : list string)
    (k : Re.cont) :
  Str.all p w = true ->
  Re.run (Re.rep (String.length w) (Re.Chr p)) (w ++ s) caps k = k s caps.
Proof.
  induction w as [|c w IH]; simpl; [reflexivity|].
  intros [Hc Hw]%andb_true_iff. rewrite Hc. auto.
Qed.

(** The greedy repetition reads all of [w] when the character after it is
    outside the class and the rest of the pattern cannot start on a
    character of the class. *)
Lemma plus_from_all (p : ascii -> bool) (w : string) :
  forall c a s caps (k : Re.cont),
    p c = true -> Str.all p w = true -> p a = false ->
    (forall b s2, p b = true -> k (String b s2) caps = None) ->
    Re.plus_from p (String c w ++ String a s) caps k = k (String a s) caps.
Proof.
  induction w as [|c' w IH]; intros c a s caps k Hc Hw Ha Hk.
  - simpl. rewrite Hc, Ha. reflexivity.
  - simpl in Hw. apply andb_true_iff in Hw as [Hc' Hw].
    change (String c (String c' w) ++ String a s)
      with (String c (String c' w ++ String a s)).
    cbn [Re.plus_from]. rewrite Hc, (IH c' a s caps k) by assumption.
    destruct (k (String a s) caps) eqn:E; [reflexivity|].
    change (String c' w ++ String a s) with (String c' (w ++ String a s)).
    now apply Hk.
Qed.

(** The names the pattern accepts, and what is read in them. *)
Lemma re_match_pattern (filename u digits : string) :
  (exists rest, Re.re_match pattern filename = Some (rest, [u; digits]))
  <-> exists c rest,
        filename = export_name u digits c rest
        /\ u <> "" /\ Str.all Str.is_word u = true
        /\ String.length digits = 14%nat /\ Str.all Str.is_digit digits = true
        /\ Str.is_dot c = true.
Proof.
  split.
  - intros [rest H]. unfold Re.re_match in H.
    apply run_sound in H as (w & s' & caps' & -> & M & H).
    injection H as -> ->. unfold pattern, Re.seq in M. simpl fold_right in M.
    inversion M as [| |? ? w1 x1 ? c1 ? M1 N1| | | |]; subst; clear M.
    apply (matches_lits "vndb-list-export-") in M1 as [-> ->].
    inversion N1 as [| |? ? w2 x2 ? c2 ? M2 N2| | | |]; subst; clear N1.
    inversion M2 as [| | | | | |? ? ? ? G2]; subst; clear M2.
    inversion G2 as [| | | | |? ? ? Hne Hall|]; subst; clear G2.
    inversion N2 as [| |? ? w3 x3 ? c3 ? M3 N3| | | |]; subst; clear N2.
    inversion M3 as [? d ? Hd| | | | | |]; subst; clear M3.
    apply Ascii.eqb_eq in Hd. subst d.
    inversion N3 as [| |? ? w4 x4 ? c4 ? M4 N4| | | |]; subst; clear N3.
    inversion M4 as [| | | | | |? ? ? ? G4]; subst; clear M4.
    apply (matches_rep_chr _ 14) in G4 as (Hlen & Hdig & ->).
    inversion N4 as [| |? ? w5 x5 ? c5 ? M5 N5| | | |]; subst; clear N4.
    inversion M5 as [? c ? Hdot| | | | | |]; subst; clear M5.
    inversion N5 as [| |? ? w6 x6 ? c6 ? M6 N6| | | |]; subst; clear N5.
    apply (matches_lits "xml") in M6 as [-> ->].
    inversion N6; subst; clear N6.
    exists c, rest. unfold export_name. rewrite !append_assoc.
    repeat split; auto.
  - intros (c & rest & -> & Hne & Hw & Hlen & Hd & Hdot).
    exists rest. unfold Re.re_match, pattern, export_name, Re.seq.
    cbn [fold_right].
    change (Re.run (Re.Cat ?a ?b) ?s ?c ?k)
      with (Re.run a s c (fun s' caps' => Re.run b s' caps' k)).
    rewrite run_lits.
    change (Re.run (Re.Cat ?a ?b) ?s ?c ?k)
      with (Re.run a s c (fun s' caps' => Re.run b s' caps' k)).
    cbn [Re.run].
    destruct u as [|c0 u]; [congruence|].
    simpl in Hw. apply andb_true_iff in Hw as [Hc0 Hw].
    set (tail := digits ++ String c ("xml" ++ rest)).
    change ("-" ++ tail) with (String "-" tail).
    rewrite (plus_from_all Str.is_word u c0 "-" tail); auto.
    + unfold Re.lit. cbn [Re.run]. rewrite Ascii.eqb_refl, consumed_append.
      unfold tail. rewrite <- Hlen, run_rep_chr by assumption.
      rewrite Hdot, run_lits, consumed_append. reflexivity.
    + intros b s2 Hb. unfold Re.lit. cbn [Re.run].
      destruct (Ascii.eqb_spec "-" b) as [<-|]; [discriminate|reflexivity].
Qed.

(** X6: the names [extract_info_from_filename] accepts, and what it returns
    for them. *)
Lemma extract_info_inr (filename u : string) (t : datetime) :
  extract_info_from_filename filename = inr (u, t)
  <-> exists digits c rest,
        filename = export_name u digits c rest
        /\ u <> "" /\ Str.all Str.is_word u = true
        /\ String.length digits = 14%nat /\ Str.all Str.is_digit digits = true
        /\ Str.is_dot c = true
        /\ strptime digits "%Y%m%d%H%M%S" = inr t.
Proof.
  unfold extract_info_from_filename. split.
  - destruct (Re.re_match pattern filename) as [[rest caps]|] eqn:Hm;
      [|discriminate].
    destruct caps as [|u' [|d [|x caps]]]; try discriminate.
    destruct (strptime d "%Y%m%d%H%M%S") as [|t'] eqn:Ht; [discriminate|].
    simpl. intros H. injection H as -> ->.
    destruct (proj1 (re_match_pattern filename u d)) as (c & rest' & H);
      [eauto|]. exists d, c, rest'. tauto.
  - intros (d & c & rest & Hf & Hne & Hw & Hlen & Hd & Hdot & Ht).
    destruct (proj2 (re_match_pattern filename u d)) as [rest' ->].
    + exists c, rest. tauto.
    + rewrite Ht. reflexivity.
Qed.

(** Any other name is refused, by line 24 or inside [strptime]. *)
Lemma extract_info_inl (filename : string) (e : exn) :
  extract_info_from_filename filename = inl e ->
  e = ValueError_filename filename \/ e = ValueError_strptime.
Proof.
  unfold extract_info_from_filename.
  destruct (Re.re_match pattern filename) as [[rest [|u [|d [|x caps]]]]|];
    try (intros H; injection H as <-; auto).
  unfold strptime, Strptime.strptime. simpl Strptime.directives. cbv iota.
  destruct (Re.re_match _ d) as [[r caps]|]; simpl;
    [|intros H; injection H as <-; auto].
  destruct (negb _); simpl; [intros H; injection H as <-; auto|].
  destruct (Strptime.valid _); simpl; intros H; [discriminate|].
  injection H as <-; auto.
Qed.

Lemma rev_acc_append (s acc : string) : Str.rev_acc s acc = Str.rev s ++ acc.
Proof.
  unfold Str.rev. revert acc. induction s as [|c s IH]; intros acc; simpl.
  - reflexivity.
  - rewrite (IH (String c "")), (IH (String c acc)), append_assoc. reflexivity.
Qed.

Lemma rev_append (a b : string) : Str.rev (a ++ b) = Str.rev b ++ Str.rev a.
Proof.
  induction a as [|c a IH]; simpl.
  - now rewrite append_nil_r.
  - unfold Str.rev in *. simpl.
    rewrite (rev_acc_append (a ++ b)), (rev_acc_append a).
    unfold Str.rev. rewrite IH, append_assoc. reflexivity.
Qed.

Lemma rev_involutive (s : string) : Str.rev (Str.rev s) = s.
Proof.
  induction s as [|c s IH]; [reflexivity|].
  change (String c s) with (String c "" ++ s) at 1.
  rewrite rev_append, rev_append, IH. reflexivity.
Qed.

Lemma startswith_spec (s p : string) :
  Str.startswith s p = true <-> exists r, s = p ++ r.
Proof.
  revert s. induction p as [|a p IH]; intros [|b s]; simpl.
  - split; eauto.
  - split; eauto.
  - split; [discriminate|]. intros [r H]. discriminate.
  - rewrite andb_true_iff, Ascii.eqb_eq, IH. split.
    + intros [-> [r ->]]. eauto.
    + intros [r H]. injection H as -> ->. eauto.
Qed.

(** [s.endswith(p)]: [p] is what [s] ends with. *)
Lemma endswith_spec (s p : string) :
  Str.endswith s p = true <-> exists q, s = q ++ p.
Proof.
  unfold Str.endswith. rewrite startswith_spec. split.
  - intros [r H]. exists (Str.rev r).
    rewrite <- (rev_involutive s), H, rev_append, rev_involutive. reflexivity.
  - intros [q ->]. exists (Str.rev q). apply rev_append.
Qed.

End Matcher.

(** ** The order on [datetime] *)

Section DatetimeOrder.

Lemma lex_cmp_refl (a : list Z) : lex_cmp a a = Eq.
Proof. induction a as [|x a IH]; simpl; [|rewrite Z.compare_refl]; auto. Qed.

Lemma lex_cmp_eq (a b : list Z) : lex_cmp a b = Eq -> a = b.
Proof.
  revert b; induction a as [|x a IH]; intros [|y b]; simpl; try discriminate; auto.
  destruct (x ?= y) eqn:E; try discriminate.
  apply Z.compare_eq in E. intros H. f_equal; auto.
Qed.

Lemma lex_cmp_antisym (a b : list Z) : lex_cmp b a = CompOpp (lex_cmp a b).
Proof.
  revert b; induction a as [|x a IH]; intros [|y b]; simpl; auto.
  rewrite (Z.compare_antisym x y).
  destruct (x ?= y); simpl; auto.
Qed.

Lemma lex_cmp_trans (a b c : list Z) :
  lex_cmp a b = Lt -> lex_cmp b c = Lt -> lex_cmp a c = Lt.
Proof.
  revert b c; induction a as [|x a IH]; intros [|y b] [|z c]; simpl;
    try discriminate; auto.
  destruct (x ?= y) eqn:Exy; try discriminate;
    destruct (y ?= z) eqn:Eyz; try discriminate; intros H1 H2.
  - apply Z.compare_eq in Exy, Eyz. subst. rewrite Z.compare_refl. eauto.
  - apply Z.compare_eq in Exy. subst. now rewrite Eyz.
  - apply Z.compare_eq in Eyz. subst. now rewrite Exy.
  - assert (x < z) as H by (rewrite Z.compare_lt_iff in Exy, Eyz; lia).
    apply Z.compare_lt_iff in H. now rewrite H.
Qed.

Lemma datetime_fields_inj (a b : datetime) :
  datetime_fields a = datetime_fields b -> a = b.
Proof. destruct a, b; unfold datetime_fields; simpl; congruence. Qed.

Lemma datetime_cmp_eq (a b : datetime) : datetime_cmp a b = Eq -> a = b.
Proof. intros H. apply datetime_fields_inj, lex_cmp_eq, H. Qed.

Lemma datetime_gt_lt (a b : datetime) : datetime_gt a b = datetime_lt b a.
Proof.
  unfold datetime_gt, datetime_lt, datetime_cmp.
  rewrite (lex_cmp_antisym (datetime_fields a)).
  destruct (lex_cmp _ _); reflexivity.
Qed.

Lemma datetime_lt_spec (a b : datetime) :
  datetime_lt a b = true <-> datetime_cmp a b = Lt.
Proof. unfold datetime_lt. destruct (datetime_cmp a b); split; congruence. Qed.

Lemma datetime_lt_irrefl (a : datetime) : datetime_lt a a = false.
Proof. unfold datetime_lt, datetime_cmp. now rewrite lex_cmp_refl. Qed.

Lemma datetime_lt_trans (a b c : datetime) :
  datetime_lt a b = true -> datetime_lt b c = true -> datetime_lt a c = true.
Proof. rewrite !datetime_lt_spec. apply lex_cmp_trans. Qed.

(** The order is total: of two different instants one is the earlier. *)
Lemma datetime_lt_total (a b : datetime) :
  datetime_lt a b = true \/ a = b \/ datetime_lt b a = true.
Proof.
  destruct (datetime_cmp a b) eqn:E.
  - right; left. now apply datetime_cmp_eq.
  - left. now apply datetime_lt_spec.
  - right; right. apply datetime_lt_spec.
    unfold datetime_cmp in *. rewrite lex_cmp_antisym, E. reflexivity.
Qed.

(** [b <= c] (that is, not [b > c]) after [a < b] gives [a < c]. *)
Lemma datetime_lt_le_trans (a b c : datetime) :
  datetime_lt a b = true -> datetime_gt b c = false -> datetime_lt a c = true.
Proof.
  rewrite datetime_gt_lt. intros Hab Hcb.
  destruct (datetime_lt_total b c) as [H|[->|H]]; [|assumption|congruence].
  eapply datetime_lt_trans; eassumption.
Qed.

Lemma datetime_le_lt_trans (a b c : datetime) :
  datetime_gt a b = false -> datetime_lt b c = true -> datetime_lt a c = true.
Proof.
  rewrite datetime_gt_lt. intros Hba Hbc.
  destruct (datetime_lt_total a b) as [H|[->|H]]; [|assumption|congruence].
  eapply datetime_lt_trans; eassumption.
Qed.

Lemma datetime_lt_not_gt (a b : datetime) :
  datetime_lt a b = true -> datetime_gt a b = false.
Proof.
  rewrite datetime_gt_lt. intros H.
  destruct (datetime_lt b a) eqn:E; [|reflexivity].
  pose proof (datetime_lt_trans _ _ _ H E) as F.
  rewrite datetime_lt_irrefl in F. discriminate.
Qed.

End DatetimeOrder.


(** ** [toordinal] counts days *)

Section Ordinals.

Lemma days_before_year_succ (y : Z) :
  Calendar.days_before_year (y + 1)
  = Calendar.days_before_year y + (if Calendar.is_leap y then 366 else 365).
Proof.
  unfold Calendar.days_before_year, Calendar.is_leap.
  replace (y + 1 - 1) with y by lia.
  destruct (y mod 4 =? 0) eqn:E4; destruct (y mod 100 =? 0) eqn:E100;
    destruct (y mod 400 =? 0) eqn:E400; simpl;
    rewrite ?Z.eqb_eq, ?Z.eqb_neq in *;
    Z.div_mod_to_equations; lia.
Qed.

(** The ordinal of the day after a date is one more than its own, across
    the ends of months and years. *)
Lemma toordinal_next_day (d : date) :
  Calendar.valid_date (dyear d) (dmonth d) (dday d) = true ->
  Calendar.toordinal (next_day d) = Calendar.toordinal d + 1.
Proof.
  destruct d as [y m dd]. unfold Calendar.valid_date, next_day. simpl.
  rewrite !andb_true_iff, !Z.leb_le. intros [[[[[Hy _] Hm1] Hm12] Hd1] Hd].
  destruct (dd <? Calendar.days_in_month y m) eqn:Hlt.
  - unfold Calendar.toordinal. simpl. lia.
  - apply Z.ltb_ge in Hlt. assert (dd = Calendar.days_in_month y m) as -> by lia.
    destruct (m <? 12) eqn:Hm.
    + apply Z.ltb_lt in Hm. unfold Calendar.toordinal. simpl.
      assert (m = 1 \/ m = 2 \/ m = 3 \/ m = 4 \/ m = 5 \/ m = 6 \/ m = 7
              \/ m = 8 \/ m = 9 \/ m = 10 \/ m = 11) as Hcases by lia.
      unfold Calendar.days_before_month, Calendar.days_in_month.
      destruct (Calendar.is_leap y);
        repeat (destruct Hcases as [->|Hcases]; [simpl; lia|]);
        subst; simpl; lia.
    + apply Z.ltb_ge in Hm. assert (m = 12) as -> by lia.
      unfold Calendar.toordinal. simpl. rewrite days_before_year_succ.
      unfold Calendar.days_before_month, Calendar.days_in_month. simpl.
      destruct (Calendar.is_leap y); lia.
Qed.

(** The difference of two timestamps at midnight is a whole number of
    days: the one [days_between] gives. *)
Lemma days_between_midnights (a b : date) :
  IZR (days_between a b) = (instant (midnight a) - instant (midnight b))%R.
Proof. unfold days_between. simpl. apply minus_IZR. Qed.

End Ordinals.

(** ** The loop of [process_files] *)

Section Selector.

Lemma bind_inr {A B : Type} (m : result A) (f : A -> result B) (b : B) :
  bind m f = inr b -> exists a, m = inr a /\ f a = inr b.
Proof. destruct m as [e|a]; simpl; [discriminate|eauto]. Qed.

Lemma process_loop_app (l1 l2 : list string) (st : selection) :
  process_loop (l1 ++ l2) st = bind (process_loop l1 st) (process_loop l2).
Proof.
  revert st; induction l1 as [|f l1 IH]; intros st; simpl; [reflexivity|].
  destruct (process_file st f); simpl; auto.
Qed.

(** The two ways one turn of the loop can go without raising. *)
Lemma process_file_inr (st st' : selection) (f : string) :
  process_file st f = inr st' ->
  (Str.endswith f ".xml" = false /\ st' = st)
  \/ (Str.endswith f ".xml" = true /\ exists u t,
        extract_info_from_filename f = inr (u, t)
        /\ usernames st' = usernames st ∪ {[u]}
        /\ ((datetime_gt t (latest_export_time st) = true
             /\ latest_file st' = Some f /\ latest_export_time st' = t)
            \/ (datetime_gt t (latest_export_time st) = false
                /\ latest_file st' = latest_file st
                /\ latest_export_time st' = latest_export_time st))).
Proof.
  unfold process_file. destruct (Str.endswith f ".xml").
  - intros H. right. split; [reflexivity|].
    apply bind_inr in H as ([u t] & He & H). exists u, t. simpl in H.
    split; [assumption|].
    destruct (datetime_gt t (latest_export_time st)) eqn:G;
      injection H as <-; simpl; auto.
  - intros H. injection H as <-. auto.
Qed.

Lemma candidate_app (l1 l2 : list string) (g u : string) (t : datetime) :
  candidate (l1 ++ l2) g u t <-> candidate l1 g u t \/ candidate l2 g u t.
Proof. unfold candidate. rewrite in_app_iff. tauto. Qed.

Lemma candidate_single (f g u : string) (t : datetime) :
  candidate [f] g u t <->
  g = f /\ Str.endswith f ".xml" = true /\ extract_info_from_filename f = inr (u, t).
Proof.
  unfold candidate. simpl. split.
  - intros ([<-|[]] & ? & ?); auto.
  - intros (-> & ? & ?); auto.
Qed.

Lemma epoch_le_latest (l : list string) (st : selection) :
  selection_inv l st -> datetime_gt epoch (latest_export_time st) = false.
Proof.
  intros [_ _ H]. destruct (latest_file st).
  - destruct H as [H _]. now apply datetime_lt_not_gt.
  - rewrite H, datetime_gt_lt. apply datetime_lt_irrefl.
Qed.

Lemma selection_inv_init : selection_inv [] selection_init.
Proof.
  split; simpl.
  - intros g u t ([] & _).
  - intros u. split; [set_solver|]. intros (g & t & [] & _).
  - reflexivity.
Qed.

Lemma selection_inv_step (l : list string) (st st' : selection) (f : string) :
  selection_inv l st -> process_file st f = inr st' ->
  selection_inv (l ++ [f]) st'.
Proof.
  intros Inv H. pose proof (epoch_le_latest _ _ Inv) as Hep.
  destruct Inv as [Hup Hus Hla].
  apply process_file_inr in H as [(Hx & ->)|(Hx & u & t & He & Hu & Hc)].
  - (* the name does not end in .xml *)
    assert (forall g u t, candidate (l ++ [f]) g u t <-> candidate l g u t) as Hcand.
    { intros g u t. rewrite candidate_app, candidate_single. split; [|auto].
      intros [?|(_ & E & _)]; [assumption|congruence]. }
    split.
    + intros g u t Hg. apply Hcand in Hg. eauto.
    + intros u. rewrite Hus. split; intros (g & t & Hg); exists g, t;
        now apply Hcand.
    + destruct (latest_file st) as [f0|]; [|assumption].
      destruct Hla as (Hlt & l1 & l2 & u & -> & ? & ? & ?).
      split; [assumption|]. exists l1, (l2 ++ [f])%list, u.
      rewrite <- app_assoc. simpl. auto.
  - (* a candidate *)
    assert (forall u', u' ∈ usernames st' <-> exists g t', candidate (l ++ [f]) g u' t')
      as Hus'.
    { intros u'. rewrite Hu, elem_of_union, elem_of_singleton, Hus. split.
      - intros [(g & t' & Hg)| ->].
        + exists g, t'. apply candidate_app. auto.
        + exists f, t. apply candidate_app. right. now apply candidate_single.
      - intros (g & t' & Hg). apply candidate_app in Hg as [Hg|Hg]; [eauto|].
        apply candidate_single in Hg as (_ & _ & E). right. congruence. }
    destruct Hc as [(Hgt & Hf & Ht)|(Hgt & Hf & Ht)].
    + (* later than everything so far *)
      rewrite datetime_gt_lt in Hgt.
      split; [| exact Hus' |]; rewrite ?Hf, ?Ht.
      * intros g u' t' Hg. apply candidate_app in Hg as [Hg|Hg].
        -- apply datetime_lt_not_gt. eapply datetime_le_lt_trans; eauto.
        -- apply candidate_single in Hg as (_ & _ & E).
           assert (t' = t) as -> by congruence.
           rewrite datetime_gt_lt. apply datetime_lt_irrefl.
      * split; [eapply datetime_le_lt_trans; eauto|].
        exists l, [], u. repeat split; auto.
        intros g u' t' Hg. eapply datetime_le_lt_trans; eauto.
    + (* not later: the variables keep their values *)
      split; [| exact Hus' |]; rewrite ?Hf, ?Ht.
      * intros g u' t' Hg. apply candidate_app in Hg as [Hg|Hg]; [eauto|].
        apply candidate_single in Hg as (_ & _ & E).
        assert (t' = t) as -> by congruence. assumption.
      * destruct (latest_file st) as [f0|]; [|assumption].
        destruct Hla as (Hlt & l1 & l2 & u0 & -> & ? & ? & ?).
        split; [assumption|]. exists l1, (l2 ++ [f])%list, u0.
        rewrite <- app_assoc. simpl. auto.
Qed.

(** The invariant holds when the loop ends without raising. *)
Lemma process_loop_inv (l : list string) (st : selection) :
  process_loop l selection_init = inr st -> selection_inv l st.
Proof.
  revert st. induction l as [|f l IH] using rev_ind; intros st H.
  - injection H as <-. apply selection_inv_init.
  - rewrite process_loop_app in H.
    apply bind_inr in H as (st0 & H0 & H). simpl in H.
    destruct (process_file st0 f) as [e|st1] eqn:Hf; [discriminate|].
    simpl in H. injection H as <-.
    eapply selection_inv_step; eauto.
Qed.

(** The loop raises only on a name that ends in [.xml] and does not match. *)
Lemma process_loop_total (l : list string) (st : selection) :
  well_named l -> exists st', process_loop l st = inr st'.
Proof.
  revert st. induction l as [|f l IH]; intros st Hw; simpl; [eauto|].
  assert (exists st1, process_file st f = inr st1) as [st1 ->].
  { unfold process_file. destruct (Str.endswith f ".xml") eqn:Hx; [|eauto].
    destruct (Hw f) as [i ->]; simpl; auto.
    destruct (datetime_gt _ _); eauto. }
  simpl. apply IH. intros g Hg. apply Hw. now right.
Qed.

End Selector.

(** ** What [process_files] returns *)

Section Selection.

Lemma size_at_most_one (X : gset string) :
  (forall x y, x ∈ X -> y ∈ X -> x = y) -> (1 <? size X)%nat = false.
Proof.
  intros Hall. apply Nat.ltb_ge.
  destruct (set_choose_or_empty X) as [[x Hx]|HE].
  - assert (X = {[x]}) as -> by (apply set_eq; intros y; set_solver).
    now rewrite size_singleton.
  - apply leibniz_equiv in HE. rewrite HE, size_empty. lia.
Qed.

Lemma size_more_than_one (X : gset string) (x y : string) :
  x ∈ X -> y ∈ X -> x <> y -> (1 <? size X)%nat = true.
Proof.
  intros Hx Hy Hne. apply Nat.ltb_lt.
  assert (size ({[x]} ∪ {[y]} : gset string) = 2%nat) as E.
  { rewrite size_union by set_solver. now rewrite !size_singleton. }
  assert (({[x]} ∪ {[y]} : gset string) ⊆ X) as Hs.
  { intros z Hz. apply elem_of_union in Hz as [Hz|Hz];
      apply elem_of_singleton in Hz; now subst. }
  apply subseteq_size in Hs. lia.
Qed.

(** When the loop ends, the outcome is read off its variables. *)
Lemma process_files_end (l : list string) (st : selection) :
  process_loop l selection_init = inr st ->
  process_files l =
    match latest_file st with
    | None => raise ValueError_no_xml
    | Some f =>
        if (1 <? size (usernames st))%nat then raise ValueError_multiple_users
        else ret f
    end.
Proof. intros H. unfold process_files. now rewrite H. Qed.

(** A candidate later than [datetime(1970, 1, 1)] makes [latest_file] a
    file name. *)
Lemma latest_file_found (l : list string) (st : selection) (g u : string)
    (t : datetime) :
  selection_inv l st -> candidate l g u t -> datetime_gt t epoch = true ->
  exists f, latest_file st = Some f.
Proof.
  intros [Hup _ Hla] Hg Ht. destruct (latest_file st) as [f|]; [eauto|].
  apply Hup in Hg. rewrite Hla in Hg. congruence.
Qed.

Lemma split_same_place {A : Type} (l1 l2 l1' l2' : list A) (x y : A) :
  (l1 ++ x :: l2 = l1' ++ y :: l2')%list -> ~ In x l1' -> ~ In y l1 -> x = y.
Proof.
  revert l1'. induction l1 as [|a l1 IH]; intros [|b l1']; simpl; intros E Hx Hy.
  - congruence.
  - exfalso. apply Hx. left. congruence.
  - exfalso. apply Hy. left. congruence.
  - injection E as -> E. eapply IH; eauto.
Qed.

End Selection.

(** ** The selector: claims *)






(** The outcome of a run over well-named files of one owner, one of them
    later than [datetime(1970, 1, 1)]: the first name, in the order of the
    listing, whose export time no candidate exceeds. *)
Lemma process_files_first_latest (l : list string) :
  well_named l -> single_owner l ->
  (exists g u t, candidate l g u t /\ datetime_gt t epoch = true) ->
  exists l1 f l2 u t,
    process_files l = inr f
    /\ l = (l1 ++ f :: l2)%list
    /\ Str.endswith f ".xml" = true
    /\ extract_info_from_filename f = inr (u, t)
    /\ (forall g u' t', candidate l g u' t' -> datetime_gt t' t = false)
    /\ (forall g u' t', candidate l1 g u' t' -> datetime_lt t' t = true).
Proof.
  intros Hw Hs (g & u & t & Hg & Ht).
  destruct (process_loop_total l selection_init Hw) as [st Hst].
  pose proof (process_loop_inv _ _ Hst) as Inv.
  destruct (latest_file_found _ _ _ _ _ Inv Hg Ht) as [f Hf].
  rewrite (process_files_end _ _ Hst), Hf.
  destruct Inv as [Hup Hus Hla]. rewrite Hf in Hla.
  destruct Hla as (_ & l1 & l2 & u0 & El & Hx & He & Hbefore).
  rewrite size_at_most_one.
  - exists l1, f, l2, u0, (latest_export_time st). repeat split; auto.
  - intros x y Hx' Hy'. apply Hus in Hx' as (gx & tx & Hgx).
    apply Hus in Hy' as (gy & ty & Hgy). eapply Hs; eauto.
Qed.

(** X1, the extent of C5 on the code: in a listing whose [.xml] names all
    match, with candidates of one owner, one of which is later than
    1970-01-01 00:00:00, [process_files] returns a candidate whose export
    time is the greatest. *)
Theorem process_files_returns_latest (file_list : list string) :
  well_named file_list -> single_owner file_list ->
  (exists g u t, candidate file_list g u t /\ datetime_gt t epoch = true) ->
  exists f u t,
    process_files file_list = inr f
    /\ candidate file_list f u t
    /\ forall g u' t', candidate file_list g u' t' -> datetime_gt t' t = false.
Proof.
  intros Hw Hs Hlate.
  destruct (process_files_first_latest _ Hw Hs Hlate)
    as (l1 & f & l2 & u & t & Hr & El & Hx & He & Hmax & _).
  exists f, u, t. repeat split; auto.
  rewrite El. apply in_elt.
Qed.

Lemma well_named_two_exports : well_named [export_A_2023; export_A_2024].
Proof.
  intros f [<-|[<-|[]]] _; eexists; vm_compute; reflexivity.
Defined.

Lemma single_owner_two_exports : single_owner [export_A_2023; export_A_2024].
Proof.
  intros g g' u u' t t' (Hg & _ & Eg) (Hg' & _ & Eg').
  destruct Hg as [<-|[<-|[]]]; destruct Hg' as [<-|[<-|[]]];
    vm_compute in Eg, Eg'; congruence.
Defined.

Lemma process_files_returns_latest_witness :
  exists f u t,
    process_files [export_A_2023; export_A_2024] = inr f
    /\ candidate [export_A_2023; export_A_2024] f u t
    /\ forall g u' t', candidate [export_A_2023; export_A_2024] g u' t' ->
         datetime_gt t' t = false.
Proof.
  apply (process_files_returns_latest [export_A_2023; export_A_2024]).
  - exact well_named_two_exports.
  - exact single_owner_two_exports.
  - exists export_A_2024, "A", t_2024.
    split; [split; [right; left; reflexivity|split]|]; vm_compute; reflexivity.
Defined.

(** The scenario of the specification: owners A, A and the export times
    20230101000000 and 20240101000000. *)
Example process_files_two_exports :
  process_files [export_A_2023; export_A_2024] = inr export_A_2024
  /\ process_files [export_A_2024; export_A_2023] = inr export_A_2024.
Proof. split; vm_compute; reflexivity. Qed.

(** C5 on the code: a single matching file whose export time is
    1970-01-01 00:00:00 is never later than the initial value of
    [latest_export_time]; [latest_file] stays [None] and line 43 raises,
    where the claim has the file returned. *)
Lemma epoch_export_counterexample :
  candidate [export_A_epoch] export_A_epoch "A" epoch
  /\ well_named [export_A_epoch] /\ single_owner [export_A_epoch]
  /\ process_files [export_A_epoch] = inl ValueError_no_xml
  /\ ~ exists f, process_files [export_A_epoch] = inr f.
Proof.
  split; [|split; [|split; [|split]]].
  - split; [left; reflexivity|]. split; vm_compute; reflexivity.
  - intros f [<-|[]] _. eexists. vm_compute. reflexivity.
  - intros g g' u u' t t' ([<-|[]] & _ & Eg) ([<-|[]] & _ & Eg').
    vm_compute in Eg, Eg'. congruence.
  - vm_compute. reflexivity.
  - intros [f H]. vm_compute in H. discriminate.
Qed.

(** X2, the extent of C9 on the code: in a listing whose [.xml] names all
    match, with two candidates of different owners, [process_files] never
    returns a file; the error is the one of line 45 as soon as a candidate
    is later than 1970-01-01 00:00:00. *)
Theorem process_files_rejects_two_owners (file_list : list string)
    (g1 g2 u1 u2 : string) (t1 t2 : datetime) :
  well_named file_list ->
  candidate file_list g1 u1 t1 -> candidate file_list g2 u2 t2 -> u1 <> u2 ->
  (forall f, process_files file_list <> inr f)
  /\ ((exists g u t, candidate file_list g u t /\ datetime_gt t epoch = true) ->
      process_files file_list = inl ValueError_multiple_users).
Proof.
  intros Hw H1 H2 Hne.
  destruct (process_loop_total file_list selection_init Hw) as [st Hst].
  pose proof (process_loop_inv _ _ Hst) as Inv.
  rewrite (process_files_end _ _ Hst).
  assert ((1 <? size (usernames st))%nat = true) as Hsize.
  { destruct Inv as [_ Hus _].
    apply (size_more_than_one _ u1 u2); [apply Hus; eauto|apply Hus; eauto|exact Hne]. }
  rewrite Hsize. split.
  - intros f. destruct (latest_file st); discriminate.
  - intros (g & u & t & Hg & Ht).
    destruct (latest_file_found _ _ _ _ _ Inv Hg Ht) as [f ->]. reflexivity.
Qed.

Lemma well_named_two_owners : well_named [export_A_2023; export_B_2023].
Proof.
  intros f [<-|[<-|[]]] _; eexists; vm_compute; reflexivity.
Defined.

Lemma candidate_A_2023 : candidate [export_A_2023; export_B_2023] export_A_2023 "A" t_2023.
Proof. split; [left; reflexivity|split; vm_compute; reflexivity]. Defined.

Lemma candidate_B_2023 : candidate [export_A_2023; export_B_2023] export_B_2023 "B" t_2023.
Proof. split; [right; left; reflexivity|split; vm_compute; reflexivity]. Defined.

Lemma process_files_rejects_two_owners_witness :
  (forall f, process_files [export_A_2023; export_B_2023] <> inr f)
  /\ ((exists g u t, candidate [export_A_2023; export_B_2023] g u t
                    /\ datetime_gt t epoch = true) ->
      process_files [export_A_2023; export_B_2023] = inl ValueError_multiple_users).
Proof.
  apply (process_files_rejects_two_owners [export_A_2023; export_B_2023]
           export_A_2023 export_B_2023 "A" "B" t_2023 t_2023).
  - exact well_named_two_owners.
  - exact candidate_A_2023.
  - exact candidate_B_2023.
  - discriminate.
Defined.

(** C9 on the code: two matching files of the owners A and B, both exported
    at 1970-01-01 00:00:00, leave [latest_file] at [None]; the test of line
    42 comes first and the error is the one of line 43, where the claim has
    the one of line 45. *)
Lemma two_owners_epoch_counterexample :
  candidate [export_A_epoch; export_B_epoch] export_A_epoch "A" epoch
  /\ candidate [export_A_epoch; export_B_epoch] export_B_epoch "B" epoch
  /\ "A" <> "B"
  /\ process_files [export_A_epoch; export_B_epoch] = inl ValueError_no_xml
  /\ process_files [export_A_epoch; export_B_epoch] <> inl ValueError_multiple_users.
Proof.
  split; [|split; [|split; [|split]]].
  - split; [left; reflexivity|split; vm_compute; reflexivity].
  - split; [right; left; reflexivity|split; vm_compute; reflexivity].
  - discriminate.
  - vm_compute. reflexivity.
  - vm_compute. discriminate.
Qed.

(** C10, as the code has it: in a listing whose [.xml] names all match, with
    candidates of one owner, the file returned is the first, in the order of
    the listing, to carry the greatest export time, that time being later
    than 1970-01-01 00:00:00. *)
Theorem process_files_tie_first (l1 l2 : list string) (f u : string)
    (t : datetime) :
  well_named (l1 ++ f :: l2) -> single_owner (l1 ++ f :: l2) ->
  Str.endswith f ".xml" = true ->
  extract_info_from_filename f = inr (u, t) ->
  datetime_gt t epoch = true ->
  (forall g u' t', candidate l1 g u' t' -> datetime_lt t' t = true) ->
  (forall g u' t', candidate l2 g u' t' -> datetime_gt t' t = false) ->
  process_files (l1 ++ f :: l2) = inr f.
Proof.
  intros Hw Hs Hx He Ht Hbefore Hafter.
  assert (candidate (l1 ++ f :: l2) f u t) as Hf.
  { split; [apply in_elt|auto]. }
  destruct (process_files_first_latest _ Hw Hs)
    as (l1' & f' & l2' & u' & t' & Hr & El & Hx' & He' & Hmax & Hfirst).
  { exists f, u, t. auto. }
  rewrite Hr. f_equal. symmetry.
  (* no candidate of the listing is later than [t] *)
  assert (forall g v s, candidate (l1 ++ f :: l2) g v s -> datetime_gt s t = false)
    as Hall.
  { intros g v s Hg. apply candidate_app in Hg as [Hg|(Hin & Hgx & Hge)].
    - apply datetime_lt_not_gt. eauto.
    - destruct Hin as [<-|Hin].
      + assert (s = t) as -> by congruence.
        rewrite datetime_gt_lt. apply datetime_lt_irrefl.
      + apply (Hafter g v s). split; auto. }
  (* so the time of the file returned is [t] *)
  assert (t' = t) as ->.
  { assert (candidate (l1 ++ f :: l2) f' u' t') as Hf'.
    { split; [rewrite El; apply in_elt|auto]. }
    apply Hall in Hf'. apply Hmax in Hf. rewrite datetime_gt_lt in Hf, Hf'.
    destruct (datetime_lt_total t t') as [H|[H|H]]; congruence. }
  eapply split_same_place; [exact El| |].
  - intros Hin. specialize (Hfirst f u t (conj Hin (conj Hx He))).
    rewrite datetime_lt_irrefl in Hfirst. discriminate.
  - intros Hin. specialize (Hbefore f' u' t (conj Hin (conj Hx' He'))).
    rewrite datetime_lt_irrefl in Hbefore. discriminate.
Qed.

Lemma well_named_with_copy :
  well_named ([export_A_2023] ++ export_A_2024 :: [export_A_2024_copy]).
Proof.
  intros f [<-|[<-|[<-|[]]]] _; eexists; vm_compute; reflexivity.
Defined.

Lemma single_owner_with_copy :
  single_owner ([export_A_2023] ++ export_A_2024 :: [export_A_2024_copy]).
Proof.
  intros g g' u u' t t' (Hg & _ & Eg) (Hg' & _ & Eg').
  destruct Hg as [<-|[<-|[<-|[]]]]; destruct Hg' as [<-|[<-|[<-|[]]]];
    vm_compute in Eg, Eg'; congruence.
Defined.

Lemma process_files_tie_first_witness :
  extract_info_from_filename export_A_2024_copy = inr ("A", t_2024)
  /\ process_files [export_A_2023; export_A_2024; export_A_2024_copy]
     = inr export_A_2024.
Proof.
  split; [vm_compute; reflexivity|].
  apply (process_files_tie_first [export_A_2023] [export_A_2024_copy]
           export_A_2024 "A" t_2024).
  - exact well_named_with_copy.
  - exact single_owner_with_copy.
  - vm_compute; reflexivity.
  - vm_compute; reflexivity.
  - vm_compute; reflexivity.
  - intros g u' t' ([<-|[]] & _ & E). vm_compute in E.
    injection E as _ <-. vm_compute; reflexivity.
  - intros g u' t' ([<-|[]] & _ & E). vm_compute in E.
    injection E as _ <-. vm_compute; reflexivity.
Defined.

(** C10 fails as stated: two matching files that share the greatest export
    time, the first of owner A and the second of owner B; the first one is
    not returned, line 45 raises. *)
Lemma tie_two_owners_counterexample :
  extract_info_from_filename export_A_2023 = inr ("A", t_2023)
  /\ extract_info_from_filename export_B_2023 = inr ("B", t_2023)
  /\ process_files [export_A_2023; export_B_2023] = inl ValueError_multiple_users
  /\ process_files [export_A_2023; export_B_2023] <> inr export_A_2023.
Proof.
  repeat split; try (vm_compute; reflexivity).
  vm_compute. discriminate.
Qed.

(** ** The logarithm of line 82 *)

Section Logarithm.

Local Open Scope R_scope.

Lemma log_base_gt_1 : 1 < log_base.
Proof. unfold log_base. lra. Qed.

Lemma ln_log_base_pos : 0 < ln log_base.
Proof. rewrite <- ln_1. apply ln_increasing; [lra|apply log_base_gt_1]. Qed.

(** Powers of the base are quotients of integers. *)
Lemma log_base_pow (n : nat) :
  log_base ^ n * IZR (100 ^ Z.of_nat n) = IZR (127 ^ Z.of_nat n).
Proof.
  rewrite <- !pow_IZR, <- Rpow_mult_distr. f_equal. unfold log_base. lra.
Qed.

(** A comparison of integer powers bounds a logarithm from below ... *)
Lemma log_lower_bound (x : Z) (p q : nat) :
  (0 < x)%Z -> (0 < q)%nat ->
  (127 ^ Z.of_nat p < x ^ Z.of_nat q * 100 ^ Z.of_nat p)%Z ->
  INR p / INR q < ln (IZR x) / ln log_base.
Proof.
  intros Hx Hq H.
  assert (0 < IZR x) as Hx' by now apply IZR_lt.
  assert (0 < INR q) as Hq' by now apply lt_0_INR.
  assert (0 < IZR (100 ^ Z.of_nat p)) as H100.
  { rewrite <- pow_IZR. apply pow_lt. lra. }
  assert (log_base ^ p < IZR x ^ q) as Hpow.
  { apply (Rmult_lt_reg_r (IZR (100 ^ Z.of_nat p))); [assumption|].
    rewrite log_base_pow, pow_IZR, <- mult_IZR. now apply IZR_lt. }
  apply ln_increasing in Hpow; [|apply pow_lt; pose proof log_base_gt_1; lra].
  rewrite !ln_pow in Hpow by (assumption || (pose proof log_base_gt_1; lra)).
  pose proof ln_log_base_pos as Hb.
  apply (Rmult_lt_reg_r (INR q * ln log_base)); [now apply Rmult_lt_0_compat|].
  field_simplify; [|lra|lra]. lra.
Qed.

(** ... and from above. *)
Lemma log_upper_bound (x : Z) (p q : nat) :
  (0 < x)%Z -> (0 < q)%nat ->
  (x ^ Z.of_nat q * 100 ^ Z.of_nat p < 127 ^ Z.of_nat p)%Z ->
  ln (IZR x) / ln log_base < INR p / INR q.
Proof.
  intros Hx Hq H.
  assert (0 < IZR x) as Hx' by now apply IZR_lt.
  assert (0 < INR q) as Hq' by now apply lt_0_INR.
  assert (0 < IZR (100 ^ Z.of_nat p)) as H100.
  { rewrite <- pow_IZR. apply pow_lt. lra. }
  assert (IZR x ^ q < log_base ^ p) as Hpow.
  { apply (Rmult_lt_reg_r (IZR (100 ^ Z.of_nat p))); [assumption|].
    rewrite log_base_pow, pow_IZR, <- mult_IZR. now apply IZR_lt. }
  apply ln_increasing in Hpow; [|now apply pow_lt].
  rewrite !ln_pow in Hpow by (assumption || (pose proof log_base_gt_1; lra)).
  pose proof ln_log_base_pos as Hb.
  apply (Rmult_lt_reg_r (INR q * ln log_base)); [now apply Rmult_lt_0_compat|].
  field_simplify; [|lra|lra]. lra.
Qed.


(** From eleven on, a power of the base exceeds its exponent by one or
    more. *)
Lemma log_base_pow_ge (n : nat) : (11 <= n)%nat -> INR n + 1 <= log_base ^ n.
Proof.
  induction 1 as [|n Hn IH].
  - unfold log_base. simpl. lra.
  - rewrite S_INR. simpl pow.
    assert (11 <= INR n) as H11 by (apply le_INR in Hn; simpl in Hn; lra).
    unfold log_base at 1. lra.
Qed.

(** From eleven days on, the length of line 82 is at most the number of
    days. *)
Lemma math_log_le_days (n : Z) :
  (11 <= n)%Z -> ln (IZR (n + 1)) / ln log_base <= IZR n.
Proof.
  intros Hn. pose proof ln_log_base_pos as Hb. pose proof log_base_gt_1 as H1.
  assert (IZR (n + 1) <= log_base ^ Z.to_nat n) as Hpow.
  { pose proof (log_base_pow_ge (Z.to_nat n)) as H.
    rewrite INR_IZR_INZ, Z2Nat.id in H by lia.
    rewrite plus_IZR. apply H. lia. }
  assert (ln (IZR (n + 1)) <= ln (log_base ^ Z.to_nat n)) as Hln.
  { destruct Hpow as [Hlt|Heq]; [|rewrite Heq; lra].
    left. apply ln_increasing; [apply IZR_lt; lia|exact Hlt]. }
  rewrite ln_pow in Hln by lra.
  rewrite INR_IZR_INZ, Z2Nat.id in Hln by lia.
  apply (Rmult_le_reg_r (ln log_base)); [assumption|].
  unfold Rdiv. rewrite Rmult_assoc, Rinv_l by lra. lra.
Qed.

(** The length of line 82 is never negative. *)
Lemma math_log_nonneg (x : Z) :
  (1 <= x)%Z -> 0 <= ln (IZR x) / ln log_base.
Proof.
  intros Hx. apply Rmult_le_pos.
  - rewrite <- ln_1. destruct (Z.eq_dec x 1%Z) as [->|Hne]; [lra|].
    left. apply ln_increasing; [lra|]. apply IZR_lt. lia.
  - left. apply Rinv_0_lt_compat, ln_log_base_pos.
Qed.

(** The whole part of a number that is not negative. *)
Lemma trunc_nonneg (x : R) :
  0 <= x -> (0 <= trunc x)%Z /\ IZR (trunc x) <= x < IZR (trunc x) + 1.
Proof.
  intros Hx. unfold trunc. destruct (Rle_dec 0 x) as [_|]; [|contradiction].
  destruct (base_Int_part x) as [Hlo Hhi]. split; [|lra].
  assert (IZR (-1) < IZR (Int_part x)) as H by (simpl; lra).
  apply lt_IZR in H. lia.
Qed.

Lemma trunc_between (x : R) (n : Z) :
  (0 <= n)%Z -> IZR n <= x < IZR n + 1 -> trunc x = n.
Proof.
  intros Hn [Hlo Hhi]. unfold trunc.
  assert (0 <= IZR n) as H0 by (apply IZR_le; assumption).
  destruct (Rle_dec 0 x) as [_|Hneg]; [|lra].
  symmetry. apply Int_part_spec. lra.
Qed.

End Logarithm.

(** ** The body of the loop of [extract_vn_info] *)

Section Extractor.

Variables (to_datetime : date_parser) (time_range : string) (today : date).

Lemma try_started_passes (vn : Element) (s : string) (d : datetime) :
  passes_gate time_range vn s d ->
  try_started time_range vn = inr (PyStr s, false).
Proof.
  intros (e & c & Hf & Ht & Hs & Hc & Hlt).
  unfold try_started. rewrite Hf. simpl. rewrite Ht. simpl.
  fold strptime. rewrite Hs, Hc. simpl. now rewrite Hlt.
Qed.

Lemma try_started_inr (vn : Element) (v : pyval) :
  try_started time_range vn = inr (v, false) ->
  exists s d, v = PyStr s /\ passes_gate time_range vn s d.
Proof.
  unfold try_started, passes_gate. intros H.
  destruct (find vn "started") as [e|] eqn:Hf; [|discriminate]. simpl in H.
  destruct (text e) as [s|] eqn:Ht; [|discriminate]. simpl in H.
  destruct (strptime s "%Y-%m-%d") as [|d] eqn:Hs; [discriminate|]. simpl in H.
  destruct (strptime time_range "%Y-%m-%d") as [|c] eqn:Hc; [discriminate|].
  simpl in H. injection H as <- Hlt. exists s, d. split; [reflexivity|].
  exists e, c. auto.
Qed.

Lemma try_started_fails (vn : Element) :
  fails_gate time_range vn ->
  (exists err, try_started time_range vn = inl err)
  \/ (exists v, try_started time_range vn = inr (v, true)).
Proof.
  unfold try_started.
  intros [Hf|[(e & Hf & Ht)|[(e & s & err & Hf & Ht & Hs)
                            |(e & s & d & c & Hf & Ht & Hs & Hc & Hlt)]]];
    rewrite Hf; simpl; [eauto| | |]; rewrite Ht; simpl; [eauto| |];
    fold strptime; rewrite Hs; simpl; [eauto|].
  rewrite Hc. simpl. rewrite Hlt. eauto.
Qed.

(** Past the gate the body is the resolution of the three other fields. *)
Lemma extract_vn_passes (vn : Element) (s : string) (d : datetime) :
  passes_gate time_range vn s d ->
  extract_vn to_datetime time_range today vn =
    (let* title := resolve_title vn in
     let* finished := resolve_finished to_datetime today vn (PyStr s) (resolve_label vn) in
     ret (Some (mkSpanRecord title (PyStr s) finished (resolve_label vn)))).
Proof.
  intros H. unfold extract_vn. now rewrite (try_started_passes _ _ _ H).
Qed.

(** Where an appended record comes from. *)
Lemma extract_vn_emits (vn : Element) (r : SpanRecord) :
  extract_vn to_datetime time_range today vn = inr (Some r) ->
  exists s d,
    passes_gate time_range vn s d
    /\ started r = PyStr s
    /\ resolve_title vn = inr (title r)
    /\ label r = resolve_label vn
    /\ resolve_finished to_datetime today vn (PyStr s) (resolve_label vn) = inr (finished r).
Proof.
  unfold extract_vn. intros H.
  destruct (try_started time_range vn) as [|[v [|]]] eqn:Hg; try discriminate.
  apply try_started_inr in Hg as (s & d & -> & Hg).
  apply bind_inr in H as (ti & Hti & H).
  apply bind_inr in H as (fi & Hfi & H).
  injection H as <-. exists s, d. simpl. auto.
Qed.

Lemma resolve_title_found (vn t : Element) :
  find vn "title" = Some t ->
  resolve_title vn =
    inr (match attrib t !! "original" with
         | Some o => PyStr o
         | None => of_option (text t)
         end).
Proof.
  intros H. unfold resolve_title, get. rewrite H. simpl.
  destruct (attrib t !! "original"); reflexivity.
Qed.

Lemma resolve_title_missing (vn : Element) :
  find vn "title" = None -> resolve_title vn = inl AttributeError.
Proof. intros H. unfold resolve_title. now rewrite H. Qed.

Lemma resolve_finished_found (vn f : Element) (started label : pyval) :
  find vn "finished" = Some f ->
  resolve_finished to_datetime today vn started label = inr (of_option (text f)).
Proof. intros H. unfold resolve_finished. now rewrite H. Qed.

(** The branch of line 80, for a start date that is a text. *)
Lemma resolve_finished_stalled (vn : Element) (s : string) :
  find vn "finished" = None ->
  resolve_finished to_datetime today vn (PyStr s) (PyStr "Stalled")
  = (let* s0 := to_datetime s in
     let* line_length := math_log (days_between today s0 + 1) in
     let* s1 := to_datetime s in
     ret (PyTimestamp (plus_days (midnight s1) line_length))).
Proof. intros H. unfold resolve_finished. now rewrite H. Qed.

(** An entry skipped by [continue] leaves the run as it is without it. *)
Lemma extract_loop_skip (vn : Element) (pre post : list Element)
    (acc : list SpanRecord) :
  extract_vn to_datetime time_range today vn = inr None ->
  extract_loop to_datetime time_range today (pre ++ vn :: post) acc
  = extract_loop to_datetime time_range today (pre ++ post) acc.
Proof.
  intros H. revert acc. induction pre as [|x pre IH]; intros acc; simpl.
  - now rewrite H.
  - destruct (extract_vn to_datetime time_range today x) as [|o]; simpl; auto.
Qed.

(** An entry that raises ends the run, once the entries before it have been
    handled. *)
Lemma extract_loop_abort (vn : Element) (err : exn) (pre post : list Element)
    (acc : list SpanRecord) :
  extract_vn to_datetime time_range today vn = inl err ->
  (forall x, In x pre -> exists o, extract_vn to_datetime time_range today x = inr o) ->
  extract_loop to_datetime time_range today (pre ++ vn :: post) acc = inl err.
Proof.
  intros H. revert acc. induction pre as [|x pre IH]; intros acc Hpre; simpl.
  - now rewrite H.
  - destruct (Hpre x) as [o ->]; [now left|]. simpl.
    apply IH. intros y Hy. apply Hpre. now right.
Qed.

(** Every record of the result was appended for some entry of the list. *)
Lemma extract_loop_records (vns : list Element) (acc rs : list SpanRecord)
    (r : SpanRecord) :
  extract_loop to_datetime time_range today vns acc = inr rs -> In r rs ->
  In r acc \/ exists vn, In vn vns /\ extract_vn to_datetime time_range today vn = inr (Some r).
Proof.
  revert acc. induction vns as [|x vns IH]; intros acc H Hr; simpl in H.
  - injection H as <-. auto.
  - destruct (extract_vn to_datetime time_range today x) as [|o] eqn:Hx; [discriminate|].
    simpl in H. destruct (IH _ H Hr) as [Hacc|(vn & Hin & Hvn)].
    + destruct o as [r'|]; [|auto].
      apply in_app_iff in Hacc as [Hacc|[<-|[]]]; [auto|].
      right. exists x. split; [now left|assumption].
    + right. exists vn. split; [now right|assumption].
Qed.

End Extractor.

(** ** The extractor: claims *)

(** C3: an entry whose start date is absent, or is rejected by [strptime],
    or is before the day of [time_range], appends no record, and the run
    goes on as if the entry were not there. *)
Theorem gate_failure_skips_entry (to_datetime : date_parser)
    (time_range : string) (today : date) (vn : Element) :
  fails_gate time_range vn ->
  extract_vn to_datetime time_range today vn = inr None
  /\ forall pre post acc,
       extract_loop to_datetime time_range today (pre ++ vn :: post) acc
       = extract_loop to_datetime time_range today (pre ++ post) acc.
Proof.
  intros H.
  assert (extract_vn to_datetime time_range today vn = inr None) as Hskip.
  { unfold extract_vn.
    destruct (try_started_fails _ _ H) as [[err ->]|[v ->]]; reflexivity. }
  split; [assumption|].
  intros pre post acc. now apply extract_loop_skip.
Qed.

Lemma fails_gate_old : fails_gate cutoff vn_old.
Proof.
  right; right; right.
  exists (leaf "started" "2019-12-31"), "2019-12-31",
    (mkdatetime 2019 12 31 0 0 0), (mkdatetime 2020 1 1 0 0 0).
  repeat split; vm_compute; reflexivity.
Defined.

Lemma gate_failure_skips_entry_witness :
  extract_vn sample_to_datetime cutoff day_2022_03_01 vn_old = inr None
  /\ forall pre post acc,
       extract_loop sample_to_datetime cutoff day_2022_03_01 (pre ++ vn_old :: post) acc
       = extract_loop sample_to_datetime cutoff day_2022_03_01 (pre ++ post) acc.
Proof.
  apply (gate_failure_skips_entry sample_to_datetime cutoff day_2022_03_01
           vn_old).
  exact fails_gate_old.
Defined.

(** The three ways of the claim, on sample entries: no start date, a text
    that is no date, a day before the cut-off. *)
Example gate_failure_samples :
  extract_vn_info folder_listing
    (folder_parse [vn_no_started; vn_playing;
                   entry [leaf "title" "X"; leaf "started" "sometime"]; vn_old])
    sample_to_datetime cutoff day_2022_03_01
  = inr [record_playing].
Proof. reflexivity. Qed.


Lemma passes_gate_2022 (vn : Element) :
  find vn "started" = Some (leaf "started" "2022-01-01") ->
  passes_gate cutoff vn "2022-01-01" (mkdatetime 2022 1 1 0 0 0).
Proof.
  intros H. exists (leaf "started" "2022-01-01"), (mkdatetime 2020 1 1 0 0 0).
  split; [exact H|]. repeat split; vm_compute; reflexivity.
Defined.




Lemma passes_gate_stalled :
  passes_gate cutoff vn_stalled "2021-05-01" (mkdatetime 2021 5 1 0 0 0).
Proof.
  exists (leaf "started" "2021-05-01"), (mkdatetime 2020 1 1 0 0 0).
  repeat split; vm_compute; reflexivity.
Defined.



(** C2, as the code has it: every record of the result comes from an entry
    of the file; its start date is a text that [strptime] reads as a day not
    before the cut-off; its finish date is a timestamp when the entry has no
    finish element, and the text of that element when it has one; its title
    is a text when the title element has an [original] attribute or a
    text.  Neither the finish date nor the title is checked. *)
Theorem emitted_record_fields (file_list : list string) (parse : parser)
    (to_datetime : date_parser) (time_range : string) (today : date)
    (rs : list SpanRecord) (r : SpanRecord) :
  extract_vn_info file_list parse to_datetime time_range today = inr rs -> In r rs ->
  exists f root vns vn,
    process_files file_list = inr f /\ parse f = inr root
    /\ find root "vns" = Some vns /\ In vn (findall vns "vn")
    /\ (exists s d, started r = PyStr s /\ passes_gate time_range vn s d)
    /\ (find vn "finished" = None -> exists ts, finished r = PyTimestamp ts)
    /\ (forall f s, find vn "finished" = Some f -> text f = Some s ->
          finished r = PyStr s)
    /\ (forall t, find vn "title" = Some t ->
          attrib t !! "original" <> None \/ text t <> None ->
          exists s, title r = PyStr s).
Proof.
  unfold extract_vn_info. intros H Hr.
  apply bind_inr in H as (f & Hsel & H).
  apply bind_inr in H as (root & Hparse & H).
  destruct (find root "vns") as [vns|] eqn:Hvns; [|discriminate]. simpl in H.
  destruct (extract_loop_records _ _ _ _ _ _ _ H Hr) as [[]|(vn & Hin & Hvn)].
  exists f, root, vns, vn. repeat (split; [assumption|]).
  apply extract_vn_emits in Hvn as (s & d & Hg & Hs & Hti & Hl & Hfi).
  split; [eauto|]. split; [|split].
  - intros Hf. unfold resolve_finished in Hfi. rewrite Hf in Hfi. simpl in Hfi.
    destruct (eq_str (resolve_label vn) "Stalled").
    + simpl in Hfi.
      destruct (to_datetime s) as [|s0]; [discriminate|]. simpl in Hfi.
      destruct (math_log _) as [|x]; [discriminate|]. simpl in Hfi.
      injection Hfi as <-. eauto.
    + injection Hfi as <-. eauto.
  - intros f' s' Hf Ht. rewrite (resolve_finished_found _ _ _ _ _ _ Hf), Ht in Hfi.
    now injection Hfi as <-.
  - intros t Ht Hsome. rewrite (resolve_title_found _ _ Ht) in Hti.
    injection Hti as <-.
    destruct (attrib t !! "original") as [o|]; [eauto|].
    destruct (text t) as [x|]; [simpl; eauto|].
    destruct Hsome; congruence.
Qed.

Lemma emitted_record_fields_witness :
  exists f root vns vn,
    process_files folder_listing = inr f
    /\ folder_parse [vn_old; vn_playing] f = inr root
    /\ find root "vns" = Some vns /\ In vn (findall vns "vn")
    /\ (exists s d, started record_playing = PyStr s /\ passes_gate cutoff vn s d)
    /\ (find vn "finished" = None ->
        exists ts, finished record_playing = PyTimestamp ts)
    /\ (forall f s, find vn "finished" = Some f -> text f = Some s ->
          finished record_playing = PyStr s)
    /\ (forall t, find vn "title" = Some t ->
          attrib t !! "original" <> None \/ text t <> None ->
          exists s, title record_playing = PyStr s).
Proof.
  apply (emitted_record_fields folder_listing (folder_parse [vn_old; vn_playing])
           sample_to_datetime cutoff day_2022_03_01 [record_playing]
           record_playing).
  - reflexivity.
  - left. reflexivity.
Defined.

(** C2 fails as stated: an entry whose finish element is empty passes the
    gate and is emitted with the finish date [None]; an entry whose title
    element has neither attribute nor text is emitted with the title
    [None]. *)
Lemma null_fields_counterexample :
  extract_vn_info folder_listing (folder_parse [vn_empty_finished])
    sample_to_datetime cutoff day_2022_03_01
  = inr [mkSpanRecord (PyStr "X") (PyStr "2022-01-01") PyNone (PyStr "Finished")]
  /\ extract_vn_info folder_listing (folder_parse [vn_empty_title])
       sample_to_datetime cutoff day_2022_03_01
     = inr [mkSpanRecord PyNone (PyStr "2022-01-01")
              (PyTimestamp (midnight day_2022_03_01)) (PyStr "Finished")].
Proof. split; reflexivity. Qed.

(** C7 on the code: a label element without the [label] attribute leaves the
    label of the record at [None], where the claim has "Finished". *)
Theorem label_without_attribute_is_none :
  find vn_label_without_attribute "label"
  = Some (mkElement "label" {[ "id" := "2" ]} None [])
  /\ extract_vn sample_to_datetime cutoff day_2022_03_01 vn_label_without_attribute
     = inr (Some (mkSpanRecord (PyStr "X") (PyStr "2022-01-01")
                    (PyTimestamp (midnight day_2022_03_01)) PyNone)).
Proof. split; reflexivity. Qed.

(** The extent of C7 on the code: without a label element the label is
    "Finished"; the [label] attribute of the first label element is used
    when it carries one, and the label is [None] when it does not. *)
Lemma resolve_label_cases (vn : Element) :
  (find vn "label" = None -> resolve_label vn = PyStr "Finished")
  /\ (forall l v, find vn "label" = Some l -> attrib l !! "label" = Some v ->
        resolve_label vn = PyStr v)
  /\ (forall l, find vn "label" = Some l -> attrib l !! "label" = None ->
        resolve_label vn = PyNone).
Proof.
  unfold resolve_label, get. repeat split.
  - intros ->. reflexivity.
  - intros l v -> Hv. simpl. now rewrite Hv.
  - intros l -> Hv. simpl. now rewrite Hv.
Qed.

(** C8, as the code has it: past the gate, an entry without a title element
    raises [AttributeError], which ends the run once the entries before it
    have been handled; with a title element nothing is checked and the title
    of the record is the [original] attribute or else the text of the
    element, [None] included. *)
Theorem title_resolution (to_datetime : date_parser) (time_range : string)
    (today : date) (vn : Element) (s : string) (d : datetime) :
  passes_gate time_range vn s d ->
  (find vn "title" = None ->
     extract_vn to_datetime time_range today vn = inl AttributeError
     /\ forall pre post acc,
          (forall x, In x pre -> exists o, extract_vn to_datetime time_range today x = inr o) ->
          extract_loop to_datetime time_range today (pre ++ vn :: post) acc = inl AttributeError)
  /\ (forall t r, find vn "title" = Some t ->
        extract_vn to_datetime time_range today vn = inr (Some r) ->
        title r = match attrib t !! "original" with
                  | Some o => PyStr o
                  | None => of_option (text t)
                  end).
Proof.
  intros Hg. split.
  - intros Ht.
    assert (extract_vn to_datetime time_range today vn = inl AttributeError) as E.
    { rewrite (extract_vn_passes _ _ _ _ _ _ Hg), (resolve_title_missing _ Ht).
      reflexivity. }
    split; [assumption|]. intros pre post acc Hpre.
    now apply extract_loop_abort.
  - intros t r Ht Hr. apply extract_vn_emits in Hr as (_ & _ & _ & _ & Hti & _).
    rewrite (resolve_title_found _ _ Ht) in Hti. now injection Hti as <-.
Qed.

Lemma title_resolution_witness :
  extract_vn sample_to_datetime cutoff day_2022_03_01 (entry [leaf "started" "2022-01-01"])
  = inl AttributeError.
Proof.
  apply (proj1 (title_resolution sample_to_datetime cutoff day_2022_03_01
                  (entry [leaf "started" "2022-01-01"]) "2022-01-01"
                  (mkdatetime 2022 1 1 0 0 0)
                  (passes_gate_2022 (entry [leaf "started" "2022-01-01"]) eq_refl))).
  reflexivity.
Defined.

(** C8 fails as stated: the title element of the entry has neither an
    [original] attribute nor a text, and the entry is neither refused nor
    skipped: its record is appended with the title [None]. *)
Lemma empty_title_counterexample :
  find vn_empty_title "title" = Some (empty_elem "title")
  /\ get (empty_elem "title") "original" = PyNone
  /\ text (empty_elem "title") = None
  /\ extract_vn sample_to_datetime cutoff day_2022_03_01 vn_empty_title
     = inr (Some (mkSpanRecord PyNone (PyStr "2022-01-01")
                    (PyTimestamp (midnight day_2022_03_01)) (PyStr "Finished"))).
Proof. repeat split. Qed.

(** ** Further properties of the two components *)

(** X4: a listing without a name ending in [.xml] has no candidate, and
    [process_files] raises the error of line 43. *)
Theorem process_files_no_xml (file_list : list string) :
  (forall f, In f file_list -> Str.endswith f ".xml" = false) ->
  process_files file_list = inl ValueError_no_xml.
Proof.
  intros H. unfold process_files.
  assert (forall st, process_loop file_list st = inr st) as ->; [|reflexivity].
  induction file_list as [|f l IH]; intros st; simpl; [reflexivity|].
  unfold process_file. rewrite (H f) by now left. simpl.
  apply IH. intros g Hg. apply H. now right.
Qed.

Lemma process_files_no_xml_witness :
  process_files ["readme.txt"; "date_formal.py"] = inl ValueError_no_xml.
Proof.
  apply (process_files_no_xml ["readme.txt"; "date_formal.py"]).
  intros f [<-|[<-|[]]]; vm_compute; reflexivity.
Defined.

(** X5: the result of a run is the records of the entries in document
    order, after those already collected; nothing is sorted or dropped. *)
Theorem extract_loop_document_order (to_datetime : date_parser)
    (time_range : string) (today : date) (vns : list Element)
    (acc rs : list SpanRecord) :
  extract_loop to_datetime time_range today vns acc = inr rs ->
  rs = (acc ++ flat_map (emitted to_datetime time_range today) vns)%list.
Proof.
  revert acc. induction vns as [|vn vns IH]; intros acc H; simpl in *.
  - injection H as <-. now rewrite app_nil_r.
  - unfold emitted at 1.
    destruct (extract_vn to_datetime time_range today vn) as [|[r|]]; [discriminate| |];
      simpl in H; apply IH in H; subst rs.
    + now rewrite <- app_assoc.
    + reflexivity.
Qed.

Lemma extract_loop_document_order_witness :
  [record_playing]
  = ([] ++ flat_map (emitted sample_to_datetime cutoff day_2022_03_01)
             [vn_old; vn_playing])%list.
Proof.
  apply (extract_loop_document_order sample_to_datetime cutoff day_2022_03_01
           [vn_old; vn_playing] [] [record_playing]).
  reflexivity.
Defined.

(** X7: when [strptime] rejects [time_range], the handler of line 61 takes
    its error for an absent start date at every entry: all the entries are
    skipped, and the result of a run that finds its file is empty. *)
Theorem unreadable_time_range_skips_all (file_list : list string)
    (parse : parser) (to_datetime : date_parser) (time_range : string)
    (today : date) (err : exn) (f : string) (root vns : Element) :
  strptime time_range "%Y-%m-%d" = inl err ->
  process_files file_list = inr f -> parse f = inr root ->
  find root "vns" = Some vns ->
  (forall vn, extract_vn to_datetime time_range today vn = inr None)
  /\ extract_vn_info file_list parse to_datetime time_range today = inr [].
Proof.
  intros Hc Hsel Hparse Hvns.
  assert (forall vn, extract_vn to_datetime time_range today vn = inr None)
    as Hskip.
  { intros vn. unfold extract_vn, try_started.
    destruct (find vn "started") as [e|]; [|reflexivity]. simpl.
    destruct (text e) as [s|]; [|reflexivity]. simpl.
    fold strptime.
    destruct (strptime s "%Y-%m-%d"); [reflexivity|]. simpl.
    now rewrite Hc. }
  split; [exact Hskip|].
  unfold extract_vn_info. rewrite Hsel. simpl. rewrite Hparse. simpl.
  rewrite Hvns. simpl.
  generalize (findall vns "vn"). intros l.
  induction l as [|vn l IH]; simpl; [reflexivity|].
  now rewrite Hskip.
Qed.

Lemma unreadable_time_range_skips_all_witness :
  (forall vn, extract_vn sample_to_datetime "2020/01/01" day_2022_03_01 vn
              = inr None)
  /\ extract_vn_info folder_listing (folder_parse [vn_playing; vn_stalled])
       sample_to_datetime "2020/01/01" day_2022_03_01
     = inr [].
Proof.
  apply (unreadable_time_range_skips_all folder_listing
           (folder_parse [vn_playing; vn_stalled]) sample_to_datetime
           "2020/01/01" day_2022_03_01 ValueError_strptime export_A_2023
           (export_root [vn_playing; vn_stalled])
           (mkElement "vns" ∅ None [vn_playing; vn_stalled])).
  - vm_compute. reflexivity.
  - vm_compute. reflexivity.
  - vm_compute. reflexivity.
  - vm_compute. reflexivity.
Defined.

(** X8: a stalled entry without a finish date that started eleven days ago
    or more gets a finish date between its start date and today, both
    included.  The bound of eleven days is needed: after one day the length
    is above 2, and the finish date is the day after today. *)
Theorem stalled_finish_within_span (to_datetime : date_parser)
    (time_range : string) (today : date) (vn t : Element) (s : string)
    (d : datetime) (s0 : date) :
  passes_gate time_range vn s d -> find vn "title" = Some t ->
  resolve_label vn = PyStr "Stalled" -> find vn "finished" = None ->
  to_datetime s = inr s0 ->
  11 <= days_between today s0 ->
  (exists title ts,
     extract_vn to_datetime time_range today vn
     = inr (Some (mkSpanRecord title (PyStr s) (PyTimestamp ts)
                    (PyStr "Stalled")))
     /\ (instant (midnight s0) <= instant ts <= instant (midnight today))%R)
  /\ trunc (ln (IZR (1 + 1)) / ln log_base) = 2.
Proof.
  intros Hg Ht Hl Hf Hs Hd. split.
  - rewrite (extract_vn_passes _ _ _ _ _ _ Hg), (resolve_title_found _ _ Ht).
    simpl. rewrite Hl, (resolve_finished_stalled _ _ _ _ Hf), Hs. simpl.
    unfold math_log.
    assert ((0 <? days_between today s0 + 1) = true) as ->
      by (apply Z.ltb_lt; lia).
    simpl. eexists. eexists. split; [reflexivity|].
    set (x := (ln (IZR (days_between today s0 + 1)) / ln log_base)%R).
    destruct (trunc_nonneg x) as [H0 [Hlo _]].
    { apply math_log_nonneg. lia. }
    pose proof (math_log_le_days _ Hd) as Hx. fold x in Hx.
    assert (trunc x <= days_between today s0) as Hle.
    { apply le_IZR. lra. }
    apply IZR_le in H0, Hle. unfold days_between in Hle.
    rewrite minus_IZR in Hle. simpl instant. lra.
  - change (1 + 1) with 2. apply trunc_between; [lia|]. split.
    + left. replace (IZR 2) with (INR 2 / INR 1)%R at 1 by (simpl; lra).
      apply log_lower_bound; [lia|lia|vm_compute; reflexivity].
    + replace (IZR 2 + 1)%R with (INR 3 / INR 1)%R by (simpl; lra).
      apply log_upper_bound; [lia|lia|vm_compute; reflexivity].
Qed.

Lemma stalled_finish_within_span_witness :
  (exists title ts,
     extract_vn sample_to_datetime cutoff day_2021_08_01 vn_stalled
     = inr (Some (mkSpanRecord title (PyStr "2021-05-01") (PyTimestamp ts)
                    (PyStr "Stalled")))
     /\ (instant (midnight day_2021_05_01) <= instant ts
         <= instant (midnight day_2021_08_01))%R)
  /\ trunc (ln (IZR (1 + 1)) / ln log_base) = 2.
Proof.
  apply (stalled_finish_within_span sample_to_datetime cutoff day_2021_08_01
           vn_stalled (leaf "title" "X") "2021-05-01"
           (mkdatetime 2021 5 1 0 0 0) day_2021_05_01).
  - exact passes_gate_stalled.
  - reflexivity.
  - reflexivity.
  - reflexivity.
  - reflexivity.
  - vm_compute. discriminate.
Defined.
